(** * ArTypes: vectors, quaternions and 3x3 matrices

    A shallow embedding of the C++ value types [Vector], [Quaternion] and
    [Matrix3x3] (files vector.cpp, quaternion.cpp, matrix.cpp, matrix.h,
    def.h).  The code is written once over an interface of scalar
    operations and read at two instances:

    - [B32]: IEEE-754 binary32 ([float]) with round-to-nearest-even, the
      arithmetic the program runs on (no extended precision, no fused
      multiply-add);
    - [Exact]: the real numbers, for the laws that hold "in exact
      arithmetic".

    Methods that assign to [*this] take the receiver as first argument and
    return the receiver after the call. *)

From Stdlib Require Import ZArith List Bool Lia.
From Stdlib Require Import Reals Lra.
From Stdlib Require Import SpecFloat.
Import ListNotations.

Set Implicit Arguments.

(** ** The scalar interface

    The operators and literals of type [float] that the sources use. *)

Class FloatOps (F : Type) : Type := {
  fadd  : F -> F -> F;
  fsub  : F -> F -> F;
  fmul  : F -> F -> F;
  fdiv  : F -> F -> F;
  fneg  : F -> F;
  fsqrt : F -> F;            (* sqrtf *)
  feqb  : F -> F -> bool;    (* ==    *)
  fgtb  : F -> F -> bool;    (* >     *)
  lit0  : F;                 (* 0.0f  *)
  lit1  : F;                 (* 1.0f  *)
  lit05 : F;                 (* 0.5f  *)
  lit4  : F                  (* 4.0f  *)
}.

(** The macro [NAN] of <cmath> exists only where the scalar type has a
    not-a-number; the methods that mention it are kept apart. *)
Class HasNaN (F : Type) : Type := { NAN : F }.

Declare Scope fl_scope.
Delimit Scope fl_scope with fl.
Notation "a + b" := (fadd a b) : fl_scope.
Notation "a - b" := (fsub a b) : fl_scope.
Notation "a * b" := (fmul a b) : fl_scope.
Notation "a / b" := (fdiv a b) : fl_scope.
Notation "- a"   := (fneg a)   : fl_scope.
Notation "a == b" := (feqb a b) (at level 70, no associativity) : fl_scope.
Notation "a > b"  := (fgtb a b) : fl_scope.

(** ** Data *)

Record Vector (F : Type) : Type := mkVector {
  v_x : F;
  v_y : F;
  v_z : F
}.

Record Quaternion (F : Type) : Type := mkQuaternion {
  q_w : F;
  q_x : F;
  q_y : F;
  q_z : F
}.

(** [float members[9]], row-major.  Every constructor of the class fills
    exactly nine cells; [Matrix3x3_wf] records that. *)
Record Matrix3x3 (F : Type) : Type := mkMatrix3x3 {
  members : list F
}.

Definition MATRIX_ROWS : nat := 3.

Definition MATRIX_COLS : nat := 3.

Definition MATRIX_LEN : nat := MATRIX_ROWS * MATRIX_COLS.

Definition Matrix3x3_wf {F} (m : Matrix3x3 F) : Prop :=
  length (members m) = MATRIX_LEN.

(** [a[i] = v] on an array held as a list; a write past the end (undefined
    in C++) leaves the list as it is. *)
Fixpoint upd {A} (l : list A) (i : nat) (v : A) : list A :=
  match l, i with
  | [], _ => []
  | _ :: t, O => v :: t
  | h :: t, S i' => h :: upd t i' v
  end.

(** ** def.h *)

Section Def.
Context {F : Type} `{FloatOps F}.
Local Open Scope fl_scope.

Definition sqr (f : F) : F := f * f.

End Def.

(** ** vector.cpp *)

Section VectorCode.
Context {F : Type} `{FloatOps F}.
Local Open Scope fl_scope.

Definition Vector_isNil (v : Vector F) : bool :=
  (v_x v == lit0) && (v_y v == lit0) && (v_z v == lit0).

Definition Vector_normSqr (v : Vector F) : F :=
  sqr (v_x v) + sqr (v_y v) + sqr (v_z v).

Definition Vector_norm (v : Vector F) : F :=
  fsqrt (Vector_normSqr v).

(** [operator/(float)] *)
Definition Vector_div (v : Vector F) (n : F) : Vector F :=
  mkVector (v_x v / n) (v_y v / n) (v_z v / n).

(** [operator/=(float)] *)
Definition Vector_div_assign (v : Vector F) (n : F) : Vector F :=
  let v1 := mkVector (v_x v / n) (v_y v) (v_z v) in
  let v2 := mkVector (v_x v1) (v_y v1 / n) (v_z v1) in
  mkVector (v_x v2) (v_y v2) (v_z v2 / n).

Definition Vector_normalise (v : Vector F) : Vector F :=
  Vector_div_assign v (Vector_norm v).

Definition Vector_normalised (v : Vector F) : Vector F :=
  Vector_div v (Vector_norm v).

Definition Vector_cross (v rhs : Vector F) : Vector F :=
  mkVector (v_y v * v_z rhs - v_z v * v_y rhs)
           (v_z v * v_x rhs - v_x v * v_z rhs)
           (v_x v * v_y rhs - v_y v * v_x rhs).

Definition Vector_dot (v rhs : Vector F) : F :=
  v_x v * v_x rhs + v_y v * v_y rhs.

End VectorCode.

Section VectorNaN.
Context {F : Type} `{FloatOps F} `{HasNaN F}.
Local Open Scope fl_scope.

Definition Vector_setNaN (v : Vector F) : Vector F :=
  mkVector NAN NAN NAN.

Definition Vector_setUndefined (v : Vector F) : Vector F :=
  mkVector NAN NAN NAN.

Definition Vector_isNaN (v : Vector F) : bool :=
  (v_x v == NAN) || (v_y v == NAN) || (v_z v == NAN).

End VectorNaN.

(** ** matrix.cpp and matrix.h, the part that does not need [Quaternion] *)

Section MatrixCode.
Context {F : Type} `{FloatOps F}.
Local Open Scope fl_scope.

Definition index (r c : nat) : nat := (MATRIX_COLS * r + c)%nat.

(** A read past the end (undefined in C++) gives [0.0f] here. *)
Definition coeff (m : Matrix3x3 F) (r c : nat) : F :=
  nth (index r c) (members m) lit0.

Definition trace (m : Matrix3x3 F) : F :=
  coeff m 0 0 + coeff m 1 1 + coeff m 2 2.

(** [for (i = 0; i < MATRIX_LEN; i++) members[i] = lst[i];] *)
Definition reset (m : Matrix3x3 F) (lst : list F) : Matrix3x3 F :=
  mkMatrix3x3
    (fold_left (fun ms i => upd ms i (nth i lst lit0))
               (seq 0 MATRIX_LEN) (members m)).

(** The nine-argument constructor: [members {}] then [reset(tmp)]. *)
Definition Matrix3x3_new (b11 b12 b13 b21 b22 b23 b31 b32 b33 : F)
  : Matrix3x3 F :=
  reset (mkMatrix3x3 (repeat lit0 MATRIX_LEN))
        [b11; b12; b13; b21; b22; b23; b31; b32; b33].

Definition identity : Matrix3x3 F :=
  Matrix3x3_new lit1 lit0 lit0 lit0 lit1 lit0 lit0 lit0 lit1.

Definition det (m : Matrix3x3 F) : F :=
  coeff m 0 0 * (coeff m 1 1 * coeff m 2 2 - coeff m 1 2 * coeff m 2 1)
  + coeff m 0 1 * (coeff m 1 2 * coeff m 2 0 - coeff m 1 0 * coeff m 2 2)
  + coeff m 0 2 * (coeff m 1 0 * coeff m 2 1 - coeff m 1 1 * coeff m 2 0).

Definition col (m : Matrix3x3 F) (idx : nat) : Vector F :=
  mkVector (nth (index 0 idx) (members m) lit0)
           (nth (index 1 idx) (members m) lit0)
           (nth (index 2 idx) (members m) lit0).

Definition row (m : Matrix3x3 F) (idx : nat) : Vector F :=
  mkVector (nth (index idx 0) (members m) lit0)
           (nth (index idx 1) (members m) lit0)
           (nth (index idx 2) (members m) lit0).

Definition fromVectors (m : Matrix3x3 F) (vx vy vz : Vector F)
           (asRows : bool) : Matrix3x3 F :=
  if asRows then
    reset m [v_x vx; v_y vx; v_z vx;
             v_x vy; v_y vy; v_z vy;
             v_x vz; v_y vz; v_z vz]
  else
    reset m [v_x vx; v_x vy; v_x vz;
             v_y vx; v_y vy; v_y vz;
             v_z vx; v_z vy; v_z vz].

End MatrixCode.

(** ** quaternion.cpp *)

Section QuaternionCode.
Context {F : Type} `{FloatOps F}.
Local Open Scope fl_scope.

(** [Quaternion()], all four arguments defaulted. *)
Definition Quaternion_default : Quaternion F :=
  mkQuaternion lit1 lit0 lit0 lit0.

Definition Quaternion_normSqr (q : Quaternion F) : F :=
  sqr (q_w q) + sqr (q_x q) + sqr (q_y q) + sqr (q_z q).

Definition Quaternion_norm (q : Quaternion F) : F :=
  fsqrt (Quaternion_normSqr q).

(** [operator/(float)] *)
Definition Quaternion_div (q : Quaternion F) (n : F) : Quaternion F :=
  mkQuaternion (q_w q / n) (q_x q / n) (q_y q / n) (q_z q / n).

Definition Quaternion_normalised (q : Quaternion F) : Quaternion F :=
  Quaternion_div q (Quaternion_norm q).

Definition conjugate (q : Quaternion F) : Quaternion F :=
  mkQuaternion (q_w q) (- q_x q) (- q_y q) (- q_z q).

(** unary [operator-()] *)
Definition Quaternion_neg (q : Quaternion F) : Quaternion F :=
  mkQuaternion (- q_w q) (- q_x q) (- q_y q) (- q_z q).

(** [operator*(const Quaternion&)], the Hamilton product [q * rhs]. *)
Definition Quaternion_mul (q rhs : Quaternion F) : Quaternion F :=
  mkQuaternion
    (q_w rhs * q_w q - q_x rhs * q_x q - q_y rhs * q_y q - q_z rhs * q_z q)
    (q_w rhs * q_x q + q_x rhs * q_w q - q_y rhs * q_z q + q_z rhs * q_y q)
    (q_w rhs * q_y q + q_x rhs * q_z q + q_y rhs * q_w q - q_z rhs * q_x q)
    (q_w rhs * q_z q - q_x rhs * q_y q + q_y rhs * q_x q + q_z rhs * q_w q).

Definition toRotationMatrix (q : Quaternion F) : Matrix3x3 F :=
  let twx := q_x q * q_w q in
  let twy := q_y q * q_w q in
  let twz := q_z q * q_w q in
  let txx := sqr (q_x q) in
  let txy := q_y q * q_x q in
  let txz := q_z q * q_x q in
  let tyy := sqr (q_y q) in
  let tyz := q_z q * q_y q in
  let tzz := sqr (q_z q) in
  let a00 := lit1 - (tyy + tzz) in
  let a01 := txy - twz in
  let a02 := txz + twy in
  let a10 := txy + twz in
  let a11 := lit1 - (txx + tzz) in
  let a12 := tyz - twx in
  let a20 := txz - twy in
  let a21 := tyz + twx in
  let a22 := lit1 - (txx + tyy) in
  Matrix3x3_new a00 a01 a02 a10 a11 a12 a20 a21 a22.

(** [set(idx, value)]: 0, 1, 2, 3 address w, x, y, z; any other index
    leaves the quaternion as it is. *)
Definition Quaternion_set (q : Quaternion F) (idx : nat) (value : F)
  : Quaternion F :=
  match idx with
  | 0 => mkQuaternion value (q_x q) (q_y q) (q_z q)
  | 1 => mkQuaternion (q_w q) value (q_y q) (q_z q)
  | 2 => mkQuaternion (q_w q) (q_x q) value (q_z q)
  | 3 => mkQuaternion (q_w q) (q_x q) (q_y q) value
  | _ => q
  end.

Definition fromMatrix (q : Quaternion F) (mat : Matrix3x3 F)
  : Quaternion F :=
  let t := trace mat in
  if t > lit0 then
    let t := fsqrt (t + lit1) in
    let w := lit05 * t in
    let t := lit05 / t in
    let x := (coeff mat 2 1 - coeff mat 1 2) * t in
    let y := (coeff mat 0 2 - coeff mat 2 0) * t in
    let z := (coeff mat 1 0 - coeff mat 0 1) * t in
    mkQuaternion w x y z
  else
    let i := 0%nat in
    let i := if coeff mat 1 1 > coeff mat 0 0 then 1%nat else i in
    let i := if coeff mat 2 2 > coeff mat i i then 2%nat else i in
    let j := ((i + 1) mod 3)%nat in
    let k := ((j + 1) mod 3)%nat in
    let t := fsqrt (coeff mat i i - coeff mat j j - coeff mat k k + lit1) in
    let q := Quaternion_set q i (lit05 * t) in
    let t := lit05 / t in
    let q := mkQuaternion ((coeff mat k j - coeff mat j k) * t)
                          (q_x q) (q_y q) (q_z q) in
    let q := Quaternion_set q j ((coeff mat j i + coeff mat i j) * t) in
    let q := Quaternion_set q k ((coeff mat k i + coeff mat i k) * t) in
    q.

End QuaternionCode.

(** ** matrix.cpp, [toQuaternion] *)

Section MatrixToQuaternion.
Context {F : Type} `{FloatOps F}.
Local Open Scope fl_scope.

Definition toQuaternion (m : Matrix3x3 F) : Quaternion F :=
  let w := lit05 * fsqrt (lit1 + trace m) in
  let w4 := w * lit4 in
  let x := (coeff m 1 2 - coeff m 2 1) / w4 in
  let y := (coeff m 2 0 - coeff m 0 2) / w4 in
  let z := (coeff m 0 1 - coeff m 1 0) / w4 in
  Quaternion_normalised (mkQuaternion w x y z).

End MatrixToQuaternion.

(** ** The two arithmetics *)

(** IEEE-754 binary32: 24 bits of precision, infinities at exponent 128,
    round to nearest, ties to even. *)
Module B32.

Definition prec : Z := 24.

Definition emax : Z := 128.

Definition float : Type := spec_float.

(** The float nearest to [m * 2^e]. *)
Definition lit (m e : Z) : float := binary_normalize prec emax m e false.

Definition is_finite (f : float) : bool :=
  match f with
  | S754_zero _ | S754_finite _ _ _ => true
  | S754_infinity _ | S754_nan => false
  end.

#[global] Instance ops : FloatOps float := {|
  fadd := SFadd prec emax;
  fsub := SFsub prec emax;
  fmul := SFmul prec emax;
  fdiv := SFdiv prec emax;
  fneg := SFopp;
  fsqrt := SFsqrt prec emax;
  feqb := SFeqb;
  fgtb := fun a b => SFltb b a;
  lit0 := S754_zero false;
  lit1 := lit 1 0;
  lit05 := lit 1 (-1);
  lit4 := lit 4 0
|}.

#[global] Instance nan : HasNaN float := {| NAN := S754_nan |}.

End B32.

(** Exact arithmetic on the reals; [sqrt] and [/] are the total functions
    of the real-number library. *)
Module Exact.

Definition Reqb (a b : R) : bool := if Req_dec_T a b then true else false.

Definition Rgtb (a b : R) : bool := if Rlt_dec b a then true else false.

#[global] Instance ops : FloatOps R := {|
  fadd := Rplus;
  fsub := Rminus;
  fmul := Rmult;
  fdiv := Rdiv;
  fneg := Ropp;
  fsqrt := sqrt;
  feqb := Reqb;
  fgtb := Rgtb;
  lit0 := 0%R;
  lit1 := 1%R;
  lit05 := (1 / 2)%R;
  lit4 := 4%R
|}.

End Exact.

(** ** Notions used to state the laws *)

(** Comparison within a tolerance, on binary32. *)
Module Tol.
Import B32.

(** [fabsf(a - b) <= tol] *)
Definition close (tol a b : float) : bool :=
  SFleb (SFabs (SFsub prec emax a b)) tol.

(** [1e-5f] *)
Definition tol_1e_5 : float := SFdiv prec emax (lit 1 0) (lit 100000 0).

Definition Quaternion_close (tol : float) (a b : Quaternion float) : bool :=
  close tol (q_w a) (q_w b) && close tol (q_x a) (q_x b)
  && close tol (q_y a) (q_y b) && close tol (q_z a) (q_z b).

(** Equal within [tol], or equal to the opposite within [tol]. *)
Definition Quaternion_close_up_to_sign (tol : float)
           (a b : Quaternion float) : bool :=
  Quaternion_close tol a b || Quaternion_close tol a (Quaternion_neg b).

End Tol.

Section Rotation.
Context {F : Type} `{FloatOps F}.
Local Open Scope fl_scope.

(** The three-term scalar product (not [Vector::dot], which has two). *)
Definition dot3 (a b : Vector F) : F :=
  v_x a * v_x b + v_y a * v_y b + v_z a * v_z b.

(** Rows of unit length, pairwise orthogonal, determinant one. *)
Definition is_rotation (m : Matrix3x3 F) : bool :=
  (dot3 (row m 0) (row m 0) == lit1)
  && (dot3 (row m 1) (row m 1) == lit1)
  && (dot3 (row m 2) (row m 2) == lit1)
  && (dot3 (row m 0) (row m 1) == lit0)
  && (dot3 (row m 0) (row m 2) == lit0)
  && (dot3 (row m 1) (row m 2) == lit0)
  && (det m == lit1).

(** The diagonal index that the second branch of [fromMatrix] settles on. *)
Definition pick_diag (mat : Matrix3x3 F) : nat :=
  let i := 0%nat in
  let i := if coeff mat 1 1 > coeff mat 0 0 then 1%nat else i in
  if coeff mat 2 2 > coeff mat i i then 2%nat else i.

(** Writing the vector component at position 0, 1, 2 (x, y, z). *)
Definition Quaternion_set_vec (q : Quaternion F) (idx : nat) (value : F)
  : Quaternion F :=
  match idx with
  | 0 => mkQuaternion (q_w q) value (q_y q) (q_z q)
  | 1 => mkQuaternion (q_w q) (q_x q) value (q_z q)
  | 2 => mkQuaternion (q_w q) (q_x q) (q_y q) value
  | _ => q
  end.

(** The second branch as the specification words it: the diagonal index
    [i] addresses the vector component at position [i], and so do [j]
    and [k]. *)
Definition fromMatrix_branch2_as_specified
           (q : Quaternion F) (mat : Matrix3x3 F) : Quaternion F :=
  let i := pick_diag mat in
  let j := ((i + 1) mod 3)%nat in
  let k := ((j + 1) mod 3)%nat in
  let t := fsqrt (coeff mat i i - coeff mat j j - coeff mat k k + lit1) in
  let q := Quaternion_set_vec q i (lit05 * t) in
  let t := lit05 / t in
  let q := mkQuaternion ((coeff mat k j - coeff mat j k) * t)
                        (q_x q) (q_y q) (q_z q) in
  let q := Quaternion_set_vec q j ((coeff mat j i + coeff mat i j) * t) in
  let q := Quaternion_set_vec q k ((coeff mat k i + coeff mat i k) * t) in
  q.

End Rotation.

(** ** Sample values *)

(** The binary32 quotient [a / b] of two small integers. *)
Definition fr (a b : Z) : B32.float :=
  SFdiv B32.prec B32.emax (B32.lit a 0) (B32.lit b 0).

(** The rotation by 120 degrees about (1, 1, 1), of norm exactly 1. *)
Definition q_half : Quaternion B32.float :=
  mkQuaternion lit05 lit05 lit05 lit05.

(** The rotation by 180 degrees about the x axis, trace -1. *)
Definition m_rot_x_half : Matrix3x3 B32.float :=
  Matrix3x3_new lit1 lit0 lit0
                lit0 (B32.lit (-1) 0) lit0
                lit0 lit0 (B32.lit (-1) 0).

(** The rotation by 90 degrees about the z axis, trace 1. *)
Definition m_rot_z_quarter : Matrix3x3 B32.float :=
  Matrix3x3_new lit0 (B32.lit (-1) 0) lit0
                lit1 lit0 lit0
                lit0 lit0 lit1.

Definition m_sample : Matrix3x3 B32.float :=
  Matrix3x3_new (B32.lit 1 0) (B32.lit 2 0) (B32.lit 3 0)
                (B32.lit 4 0) (B32.lit 5 0) (B32.lit 6 0)
                (B32.lit 7 0) (B32.lit 8 0) S754_nan.

Definition q_3_4_5 : Quaternion R :=
  mkQuaternion (3 / 5)%R (4 / 5)%R 0%R 0%R.

(** (2^100, 0, 0, 0) and (2^-100, 0, 0, 0) on binary32: the square of the
    first overflows. *)
Definition q_big : Quaternion B32.float :=
  mkQuaternion (B32.lit 1 100) lit0 lit0 lit0.

Definition q_small : Quaternion B32.float :=
  mkQuaternion (B32.lit 1 (-100)) lit0 lit0 lit0.

(** ** The rest of the three classes *)

(** *** vector.cpp and vector.h *)

Section VectorMore.
Context {F : Type} `{FloatOps F}.
Local Open Scope fl_scope.

(** [Vector()], all three arguments defaulted. *)
Definition Vector_default : Vector F := mkVector lit0 lit0 lit0.

Definition identical (a : F) : Vector F := mkVector a a a.

Definition noZeros (v : Vector F) : Vector F :=
  let v := if v_x v == lit0 then mkVector lit1 (v_y v) (v_z v) else v in
  let v := if v_y v == lit0 then mkVector (v_x v) lit1 (v_z v) else v in
  if v_z v == lit0 then mkVector (v_x v) (v_y v) lit1 else v.

(** [operator/(const Vector&)] *)
Definition Vector_div_Vector (v rhs : Vector F) : Vector F :=
  mkVector (v_x v / v_x rhs) (v_y v / v_y rhs) (v_z v / v_z rhs).

(** [operator*(float)] *)
Definition Vector_scale (v : Vector F) (n : F) : Vector F :=
  mkVector (v_x v * n) (v_y v * n) (v_z v * n).

(** [operator*(const Vector&)] *)
Definition Vector_mul_Vector (v rhs : Vector F) : Vector F :=
  mkVector (v_x v * v_x rhs) (v_y v * v_y rhs) (v_z v * v_z rhs).

(** [operator*(const Quaternion&)] *)
Definition Vector_mul_Quaternion (v : Vector F) (rhs : Quaternion F)
  : Quaternion F :=
  mkQuaternion
    (- v_x v * q_x rhs - v_y v * q_y rhs - v_z v * q_z rhs)
    (v_x v * q_w rhs - v_y v * q_z rhs + v_z v * q_y rhs)
    (v_x v * q_z rhs + v_y v * q_w rhs - v_z v * q_x rhs)
    (- v_x v * q_y rhs + v_y v * q_x rhs + v_z v * q_w rhs).

(** [operator-(const Vector&)] *)
Definition Vector_sub (v rhs : Vector F) : Vector F :=
  mkVector (v_x v - v_x rhs) (v_y v - v_y rhs) (v_z v - v_z rhs).

(** unary [operator-()] *)
Definition Vector_neg (v : Vector F) : Vector F :=
  mkVector (- v_x v) (- v_y v) (- v_z v).

(** [operator+(const Vector&)] *)
Definition Vector_add (v rhs : Vector F) : Vector F :=
  mkVector (v_x v + v_x rhs) (v_y v + v_y rhs) (v_z v + v_z rhs).

(** [operator+(float)] *)
Definition Vector_add_float (v : Vector F) (rhs : F) : Vector F :=
  mkVector (v_x v + rhs) (v_y v + rhs) (v_z v + rhs).

(** [operator-(float)] *)
Definition Vector_sub_float (v : Vector F) (rhs : F) : Vector F :=
  mkVector (v_x v - rhs) (v_y v - rhs) (v_z v - rhs).

Definition Vector_sum (v : Vector F) : F := v_x v + v_y v + v_z v.

Definition Vector_clear (v : Vector F) : Vector F :=
  mkVector lit0 lit0 lit0.

Definition Vector_sqrt (v : Vector F) : Vector F :=
  mkVector (fsqrt (v_x v)) (fsqrt (v_y v)) (fsqrt (v_z v)).

(** The free [operator*(float, const Vector&)] *)
Definition float_mul_Vector (f : F) (v : Vector F) : Vector F :=
  Vector_scale v f.

(** The free [operator+(float, const Vector&)] *)
Definition float_add_Vector (f : F) (v : Vector F) : Vector F :=
  Vector_add_float v f.

(** The free [operator-(float, const Vector&)] *)
Definition float_sub_Vector (f : F) (v : Vector F) : Vector F :=
  Vector_sub_float v f.

End VectorMore.

(** *** matrix.cpp and matrix.h *)

Section MatrixMore.
Context {F : Type} `{FloatOps F}.
Local Open Scope fl_scope.

(** The constructor from an array: the nine cells of a fresh object are
    assigned one by one. *)
Definition Matrix3x3_of_array (mat : list F) : Matrix3x3 F :=
  mkMatrix3x3
    (fold_left (fun ms i => upd ms i (nth i mat lit0))
               (seq 0 MATRIX_LEN) (repeat lit0 MATRIX_LEN)).

(** [set(r, c, value)] *)
Definition Matrix3x3_set (m : Matrix3x3 F) (r c : nat) (value : F)
  : Matrix3x3 F :=
  mkMatrix3x3 (upd (members m) (index r c) value).

(** [set(i, value)], the diagonal cell *)
Definition Matrix3x3_set_diag (m : Matrix3x3 F) (i : nat) (value : F)
  : Matrix3x3 F :=
  mkMatrix3x3 (upd (members m) (index i i) value).

(** The two nested loops fill a local array [tmp], from which the result
    is constructed. *)
Definition transpose (m : Matrix3x3 F) : Matrix3x3 F :=
  let tmp :=
    fold_left
      (fun tmp c =>
         fold_left
           (fun tmp r =>
              upd tmp (index c r)
                  (nth (MATRIX_COLS * r + c)%nat (members m) lit0))
           (seq 0 MATRIX_ROWS) tmp)
      (seq 0 MATRIX_COLS) (repeat lit0 MATRIX_LEN) in
  Matrix3x3_of_array tmp.

(** [operator*(const Vector&)] *)
Definition Matrix3x3_mul_Vector (m : Matrix3x3 F) (rhs : Vector F)
  : Vector F :=
  mkVector
    (coeff m 0 0 * v_x rhs + coeff m 0 1 * v_y rhs + coeff m 0 2 * v_z rhs)
    (coeff m 1 0 * v_x rhs + coeff m 1 1 * v_y rhs + coeff m 1 2 * v_z rhs)
    (coeff m 2 0 * v_x rhs + coeff m 2 1 * v_y rhs + coeff m 2 2 * v_z rhs).

Definition merge (v1 v2 v3 : Vector F) : Matrix3x3 F :=
  Matrix3x3_new (v_x v1) (v_x v2) (v_x v3)
                (v_y v1) (v_y v2) (v_y v3)
                (v_z v1) (v_z v2) (v_z v3).

End MatrixMore.

(** *** quaternion.cpp and quaternion.h *)

Section QuaternionMore.
Context {F : Type} `{FloatOps F}.
Local Open Scope fl_scope.

(** [operator/=(float)] *)
Definition Quaternion_div_assign (q : Quaternion F) (n : F)
  : Quaternion F :=
  let q := mkQuaternion (q_w q / n) (q_x q) (q_y q) (q_z q) in
  let q := mkQuaternion (q_w q) (q_x q / n) (q_y q) (q_z q) in
  let q := mkQuaternion (q_w q) (q_x q) (q_y q / n) (q_z q) in
  mkQuaternion (q_w q) (q_x q) (q_y q) (q_z q / n).

Definition normalize (q : Quaternion F) : Quaternion F :=
  Quaternion_div_assign q (Quaternion_norm q).

Definition axis (q : Quaternion F) : Vector F :=
  mkVector (q_x q) (q_y q) (q_z q).

Definition getAxis (q : Quaternion F) : Vector F :=
  mkVector (q_x q) (q_y q) (q_z q).

Definition setAxis (q : Quaternion F) (v : Vector F) : Quaternion F :=
  mkQuaternion (q_w q) (v_x v) (v_y v) (v_z v).

(** [operator*(float)] *)
Definition Quaternion_scale (q : Quaternion F) (n : F) : Quaternion F :=
  mkQuaternion (q_w q * n) (q_x q * n) (q_y q * n) (q_z q * n).

(** [operator+(const Quaternion&)] *)
Definition Quaternion_add (q rhs : Quaternion F) : Quaternion F :=
  mkQuaternion (q_w q + q_w rhs) (q_x q + q_x rhs)
               (q_y q + q_y rhs) (q_z q + q_z rhs).

(** [operator*(const Vector&)] *)
Definition Quaternion_mul_Vector (q : Quaternion F) (rhs : Vector F)
  : Quaternion F :=
  mkQuaternion
    (- v_x rhs * q_x q - v_y rhs * q_y q - v_z rhs * q_z q)
    (v_x rhs * q_w q - v_y rhs * q_z q + v_z rhs * q_y q)
    (v_x rhs * q_z q + v_y rhs * q_w q - v_z rhs * q_x q)
    (- v_x rhs * q_y q + v_y rhs * q_x q + v_z rhs * q_w q).

(** [operator==] *)
Definition Quaternion_eqb (q rhs : Quaternion F) : bool :=
  (q_w q == q_w rhs) && (q_x q == q_x rhs)
  && (q_y q == q_y rhs) && (q_z q == q_z rhs).

(** [operator!=] *)
Definition Quaternion_neqb (q rhs : Quaternion F) : bool :=
  negb (Quaternion_eqb q rhs).

Definition Quaternion_clear (q : Quaternion F) : Quaternion F :=
  mkQuaternion lit1 lit0 lit0 lit0.

Definition isUnit (q : Quaternion F) : bool :=
  (q_w q == lit1) && (q_x q == lit0) && (q_y q == lit0) && (q_z q == lit0).

Definition fromQuaternion (self q : Quaternion F) : Quaternion F :=
  mkQuaternion (q_w q) (q_x q) (q_y q) (q_z q).

(** [operator*=(const Quaternion&)] *)
Definition Quaternion_mul_assign (q rhs : Quaternion F) : Quaternion F :=
  Quaternion_mul q rhs.

(** The free [operator*(float, const Quaternion&)] *)
Definition float_mul_Quaternion (f : F) (q : Quaternion F)
  : Quaternion F :=
  Quaternion_scale q f.

(** [fromArray(const float array[4])]; the array is a list read at 0..3. *)
Definition fromArray (array : list F) : Quaternion F :=
  mkQuaternion (nth 0 array lit0) (nth 1 array lit0)
               (nth 2 array lit0) (nth 3 array lit0).

End QuaternionMore.

(** The functions of <cmath> beyond [sqrtf], the literal [2.0f] they are
    used with, and the constant of def.h. *)
Class FloatTrig (F : Type) : Type := {
  lit2  : F;                 (* 2.0f  *)
  fcos  : F -> F;            (* cosf  *)
  fsin  : F -> F;            (* sinf  *)
  facos : F -> F;            (* acosf *)
  RAD_TO_DEG : F
}.

Section QuaternionAngles.
Context {F : Type} `{FloatOps F} `{FloatTrig F}.
Local Open Scope fl_scope.

Definition fromAngles (roll pitch yaw : F) : Quaternion F :=
  let halfR := roll / lit2 in
  let halfP := pitch / lit2 in
  let halfY := yaw / lit2 in
  let cosR := fcos halfR in
  let cosP := fcos halfP in
  let cosY := fcos halfY in
  let sinR := fsin halfR in
  let sinP := fsin halfP in
  let sinY := fsin halfY in
  mkQuaternion
    (cosR * cosP * cosY + sinR * sinP * sinY)
    (sinR * cosP * cosY - cosR * sinP * sinY)
    (cosR * sinP * cosY + sinR * cosP * sinY)
    (cosR * cosP * sinY - sinR * sinP * cosY).

Definition angle (q : Quaternion F) (inDegrees : bool) : F :=
  if inDegrees then (lit2 * facos (q_w q)) * RAD_TO_DEG
  else lit2 * facos (q_w q).

End QuaternionAngles.

(** In exact arithmetic the functions are those of the real-number
    library, and [RAD_TO_DEG] is the decimal written in def.h. *)
#[global] Instance Exact_trig : FloatTrig R := {|
  lit2 := 2%R;
  fcos := cos;
  fsin := sin;
  facos := acos;
  RAD_TO_DEG :=
    (57295779513082320876798154814105 / 1000000000000000000000000000000)%R
|}.

(** Two binary32 values that are the same, or are both zeros (of any
    signs): what [==] cannot tell apart, NaN aside. *)
Definition same_or_zeros (x y : B32.float) : Prop :=
  x = y \/ (exists s s', x = S754_zero s /\ y = S754_zero s').

Definition is_nan (x : B32.float) : bool :=
  match x with S754_nan => true | _ => false end.

Definition is_zero (x : B32.float) : bool :=
  match x with S754_zero _ => true | _ => false end.

Definition v_1_2_2 : Vector R := mkVector 1%R 2%R 2%R.

Definition q_1_2_2_4 : Quaternion R := mkQuaternion 1%R 2%R 2%R 4%R.

(** ** Vector laws *)

Section VectorFacts.
Context {F : Type} `{FloatOps F}.
Local Open Scope fl_scope.

Lemma Vector_dot_ignores_z (a b : Vector F) (za zb : F) :
  Vector_dot (mkVector (v_x a) (v_y a) za) (mkVector (v_x b) (v_y b) zb)
  = Vector_dot a b.
Proof. reflexivity. Qed.

Lemma Vector_norm_unfold (a : Vector F) :
  Vector_norm a
  = fsqrt (v_x a * v_x a + v_y a * v_y a + v_z a * v_z a).
Proof. reflexivity. Qed.

End VectorFacts.

(** C3. [a.dot(b)] is [a.x*b.x + a.y*b.y]: the z components of the two
    operands never reach the result, whatever they are; [a.norm()] is the
    square root of the sum of the three squares.  Holds for every
    arithmetic, binary32 and exact alike. *)
Theorem C3_dot_xy_only_norm_xyz :
  forall (F : Type) (O : FloatOps F) (a b : Vector F),
    Vector_dot a b = (v_x a * v_x b + v_y a * v_y b)%fl
    /\ (forall za zb : F,
          Vector_dot (mkVector (v_x a) (v_y a) za)
                     (mkVector (v_x b) (v_y b) zb) = Vector_dot a b)
    /\ Vector_norm a
       = fsqrt (v_x a * v_x a + v_y a * v_y a + v_z a * v_z a)%fl.
Proof.
  intros F O a b. split; [reflexivity | split].
  - intros za zb. apply Vector_dot_ignores_z.
  - apply Vector_norm_unfold.
Qed.

(** On binary32 the unit vector along z has dot product 0 with itself and
    norm 1. *)
Example dot_ez_ez_b32 :
  let ez : Vector B32.float := mkVector lit0 lit0 lit1 in
  Vector_dot ez ez = lit0 /\ Vector_norm ez = lit1.
Proof. split; vm_compute; reflexivity. Qed.

(** ** Comparisons and division on binary32 *)

Lemma SFeqb_nan_r (x : spec_float) : SFeqb x S754_nan = false.
Proof. destruct x; reflexivity. Qed.

Lemma SFeqb_zero_inv (x : spec_float) :
  SFeqb x (S754_zero false) = true -> exists s, x = S754_zero s.
Proof.
  destruct x as [s | s | | s m e]; unfold SFeqb; simpl.
  - intros _. now exists s.
  - destruct s; discriminate.
  - discriminate.
  - destruct s; discriminate.
Qed.

Lemma SFdiv_zero_not_finite (x : spec_float) (s : bool) :
  B32.is_finite (SFdiv B32.prec B32.emax x (S754_zero s)) = false.
Proof. destruct x; reflexivity. Qed.

(** C10. [isNaN] answers [false] on every binary32 vector, the all-NaN
    vectors left by [setNaN] and [setUndefined] included: each of its three
    tests is [component == NAN]. *)
Theorem C10_isNaN_never_true :
  forall v : Vector B32.float,
    Vector_isNaN v = false
    /\ Vector_isNaN (Vector_setNaN v) = false
    /\ Vector_isNaN (Vector_setUndefined v) = false.
Proof.
  assert (A : forall u : Vector B32.float, Vector_isNaN u = false).
  { intros [x y z]. unfold Vector_isNaN. cbn.
    now rewrite !SFeqb_nan_r. }
  intros v. repeat split; apply A.
Qed.

(** C8. A binary32 vector whose [norm()] compares equal to zero is sent by
    [normalised()] to a vector with no finite component (each is an
    infinity or NaN); the function returns it like any other value. *)
Theorem C8_normalised_of_zero_norm :
  forall v : Vector B32.float,
    (Vector_norm v == lit0)%fl = true ->
    B32.is_finite (v_x (Vector_normalised v)) = false
    /\ B32.is_finite (v_y (Vector_normalised v)) = false
    /\ B32.is_finite (v_z (Vector_normalised v)) = false.
Proof.
  intros v Hz. apply SFeqb_zero_inv in Hz. destruct Hz as [s Hs].
  unfold Vector_normalised, Vector_div. rewrite Hs. cbn.
  repeat split; apply SFdiv_zero_not_finite.
Qed.

Lemma C8_normalised_of_zero_norm_witness :
  let v : Vector B32.float := mkVector lit0 lit0 lit0 in
  (Vector_norm v == lit0)%fl = true
  /\ B32.is_finite (v_x (Vector_normalised v)) = false
  /\ B32.is_finite (v_y (Vector_normalised v)) = false
  /\ B32.is_finite (v_z (Vector_normalised v)) = false.
Proof.
  intro v. split; [reflexivity |].
  apply (C8_normalised_of_zero_norm v). reflexivity.
Defined.

(** The zero vector goes to (NaN, NaN, NaN).  The norm is also zero for a
    vector too small for its squares to be represented: (2^-100, 0, 0)
    goes to (+Inf, NaN, NaN). *)
Example normalised_zero_and_tiny_b32 :
  let o : Vector B32.float := mkVector lit0 lit0 lit0 in
  let v : Vector B32.float := mkVector (B32.lit 1 (-100)) lit0 lit0 in
  Vector_normalised o = mkVector S754_nan S754_nan S754_nan
  /\ (Vector_norm v == lit0)%fl = true
  /\ Vector_normalised v
     = mkVector (S754_infinity false) S754_nan S754_nan.
Proof. repeat split; vm_compute; reflexivity. Qed.

(** ** Matrix storage *)

Lemma length9_inv {A} (l : list A) :
  length l = 9%nat ->
  exists a0 a1 a2 a3 a4 a5 a6 a7 a8,
    l = [a0; a1; a2; a3; a4; a5; a6; a7; a8].
Proof.
  intros Hl.
  do 9 (destruct l as [| ? l]; [discriminate Hl |]).
  destruct l; [| discriminate Hl].
  repeat eexists.
Qed.

(** Name the nine cells of a well-formed matrix. *)
Ltac nine_cells m :=
  let l := fresh "l" in
  let Hl := fresh "Hl" in
  destruct m as [l]; unfold Matrix3x3_wf in *; cbn [members] in *;
  match goal with
  | Hwf : length l = MATRIX_LEN |- _ =>
      apply length9_inv in Hwf;
      destruct Hwf as (?a & ?a & ?a & ?a & ?a & ?a & ?a & ?a & ?a & Hl);
      subst l
  end.

Section MatrixFacts.
Context {F : Type} `{FloatOps F}.

Lemma upd_length (l : list F) (i : nat) (v : F) :
  length (upd l i v) = length l.
Proof.
  revert i; induction l as [| h t IH]; intros [| i]; cbn; auto.
Qed.

(** [reset] keeps the nine cells nine. *)
Lemma reset_wf (m : Matrix3x3 F) (lst : list F) :
  Matrix3x3_wf m -> Matrix3x3_wf (reset m lst).
Proof.
  unfold Matrix3x3_wf, reset; cbn [members].
  generalize (seq 0 MATRIX_LEN) as idxs, (members m) as ms.
  induction idxs as [| i idxs IH]; intros ms Hms; cbn; auto.
  apply IH. now rewrite upd_length.
Qed.

(** On a nine-cell receiver [reset] stores the nine values given. *)
Lemma reset_nine (m : Matrix3x3 F) (b0 b1 b2 b3 b4 b5 b6 b7 b8 : F) :
  Matrix3x3_wf m ->
  reset m [b0; b1; b2; b3; b4; b5; b6; b7; b8]
  = mkMatrix3x3 [b0; b1; b2; b3; b4; b5; b6; b7; b8].
Proof. intros Hm. nine_cells m. reflexivity. Qed.

Lemma Matrix3x3_new_wf (b0 b1 b2 b3 b4 b5 b6 b7 b8 : F) :
  Matrix3x3_wf (Matrix3x3_new b0 b1 b2 b3 b4 b5 b6 b7 b8).
Proof. reflexivity. Qed.

Lemma fromVectors_wf (m : Matrix3x3 F) (vx vy vz : Vector F) (b : bool) :
  Matrix3x3_wf m -> Matrix3x3_wf (fromVectors m vx vy vz b).
Proof. intros Hm. destruct b; apply reset_wf, Hm. Qed.

Lemma toRotationMatrix_wf (q : Quaternion F) :
  Matrix3x3_wf (toRotationMatrix q).
Proof. apply Matrix3x3_new_wf. Qed.

End MatrixFacts.

(** C9. On nine-cell matrices, [fromVectors] applied to the three rows of
    [m] (asRows = true), or to its three columns (asRows = false), leaves
    the receiver equal to [m] cell for cell; and the rows, respectively the
    columns, of what [fromVectors] builds are the three vectors given. *)
Theorem C9_fromVectors_inverts_row_col :
  forall (F : Type) (O : FloatOps F) (self m : Matrix3x3 F)
         (vx vy vz : Vector F),
    Matrix3x3_wf self -> Matrix3x3_wf m ->
    fromVectors self (row m 0) (row m 1) (row m 2) true = m
    /\ fromVectors self (col m 0) (col m 1) (col m 2) false = m
    /\ (row (fromVectors self vx vy vz true) 0 = vx
        /\ row (fromVectors self vx vy vz true) 1 = vy
        /\ row (fromVectors self vx vy vz true) 2 = vz)
    /\ (col (fromVectors self vx vy vz false) 0 = vx
        /\ col (fromVectors self vx vy vz false) 1 = vy
        /\ col (fromVectors self vx vy vz false) 2 = vz).
Proof.
  intros F O self m vx vy vz Hself Hm.
  unfold fromVectors. rewrite !reset_nine by assumption.
  destruct vx, vy, vz. nine_cells m.
  repeat split; reflexivity.
Qed.

Lemma C9_fromVectors_inverts_row_col_witness :
  Matrix3x3_wf (identity (F := B32.float)) /\ Matrix3x3_wf m_sample
  /\ fromVectors identity (row m_sample 0) (row m_sample 1) (row m_sample 2)
                 true = m_sample
  /\ fromVectors identity (col m_sample 0) (col m_sample 1) (col m_sample 2)
                 false = m_sample.
Proof.
  assert (Hi : Matrix3x3_wf (identity (F := B32.float))) by reflexivity.
  assert (Hs : Matrix3x3_wf m_sample) by reflexivity.
  split; [exact Hi | split; [exact Hs |]].
  destruct (@C9_fromVectors_inverts_row_col
              B32.float B32.ops identity m_sample
              (mkVector lit0 lit0 lit0) (mkVector lit0 lit0 lit0)
              (mkVector lit0 lit0 lit0) Hi Hs) as (Hr & Hc & _).
  split; [exact Hr | exact Hc].
Defined.

(** ** Identity laws *)

(** C7. On binary32, [Matrix3x3::identity().toQuaternion()] is the
    quaternion (1, 0, 0, 0), and [Quaternion().toRotationMatrix()] is
    [Matrix3x3::identity()], all nine cells. *)
Theorem C7_identity_laws :
  toQuaternion (identity (F := B32.float)) = mkQuaternion lit1 lit0 lit0 lit0
  /\ toRotationMatrix (Quaternion_default (F := B32.float)) = identity.
Proof. split; vm_compute; reflexivity. Qed.

(** Reading the interface at the reals. *)
Ltac exact_arith :=
  cbn [fadd fsub fmul fdiv fneg fsqrt feqb fgtb lit0 lit1 lit05 lit4
       Exact.ops] in *.

(** The identity laws hold in exact arithmetic as well. *)
Lemma identity_laws_exact :
  toQuaternion (identity (F := R)) = Quaternion_default
  /\ toRotationMatrix (Quaternion_default (F := R)) = identity.
Proof.
  split.
  - unfold toQuaternion, Quaternion_normalised, Quaternion_norm,
      Quaternion_normSqr, Quaternion_div, Quaternion_default, sqr,
      trace, coeff.
    cbn. exact_arith.
    replace (1 + (1 + 1 + 1))%R with (2 * 2)%R by ring.
    rewrite sqrt_square by lra.
    replace (1 / 2 * 2 * (1 / 2 * 2)
             + (0 - 0) / (1 / 2 * 2 * 4) * ((0 - 0) / (1 / 2 * 2 * 4))
             + (0 - 0) / (1 / 2 * 2 * 4) * ((0 - 0) / (1 / 2 * 2 * 4))
             + (0 - 0) / (1 / 2 * 2 * 4) * ((0 - 0) / (1 / 2 * 2 * 4)))%R
      with (1 * 1)%R by field.
    rewrite sqrt_square by lra.
    f_equal; field.
  - unfold toRotationMatrix, identity, Quaternion_default, sqr,
      Matrix3x3_new, reset.
    cbn. exact_arith. do 2 f_equal; [ring | f_equal ..];
      repeat (f_equal; try ring).
Qed.

(** ** Hamilton algebra in exact arithmetic *)




(** A NaN component is within no tolerance of anything, so no choice of
    tolerance reconciles the two groupings above. *)
Lemma close_nan_l (tol b : B32.float) : Tol.close tol S754_nan b = false.
Proof. destruct tol, b; reflexivity. Qed.

Lemma mul_assoc_b32_overflow_any_tol (tol : B32.float) :
  Tol.Quaternion_close tol
    (Quaternion_mul (Quaternion_mul q_big q_big) q_small)
    (Quaternion_mul q_big (Quaternion_mul q_big q_small)) = false.
Proof.
  replace (Quaternion_mul (Quaternion_mul q_big q_big) q_small)
    with (mkQuaternion (S754_infinity false) S754_nan S754_nan S754_nan)
    by (vm_compute; reflexivity).
  unfold Tol.Quaternion_close. cbn [q_w q_x q_y q_z].
  rewrite !close_nan_l. now rewrite !andb_false_r.
Qed.

(** On binary32 the two groupings of a triple product can differ in the
    last bit; here they agree within 1e-5. *)
Example mul_assoc_b32_last_bit :
  let q1 := mkQuaternion (fr 1 3) (fr 2 3) (fr 2 3) lit0 in
  let q2 := mkQuaternion (fr 2 7) (fr 3 7) (fr 6 7) lit0 in
  let q3 := mkQuaternion (fr 3 5) lit0 lit0 (fr 4 5) in
  Quaternion_mul (Quaternion_mul q1 q2) q3
  = mkQuaternion (S754_finite true 11504378 (-24))
                 (S754_finite false 9746765 (-24))
                 (S754_finite false 10226112 (-29))
                 (S754_finite true 14700037 (-25))
  /\ Quaternion_mul q1 (Quaternion_mul q2 q3)
     = mkQuaternion (S754_finite true 11504377 (-24))
                    (S754_finite false 9746764 (-24))
                    (S754_finite false 10226112 (-29))
                    (S754_finite true 14700038 (-25))
  /\ Tol.Quaternion_close Tol.tol_1e_5
       (Quaternion_mul (Quaternion_mul q1 q2) q3)
       (Quaternion_mul q1 (Quaternion_mul q2 q3)) = true.
Proof. repeat split; vm_compute; reflexivity. Qed.




(** On binary32, (1/3, 2/3, 2/3, 0) times its conjugate is (1, 0, 0, 0). *)
Example mul_conjugate_b32 :
  let q := mkQuaternion (fr 1 3) (fr 2 3) (fr 2 3) lit0 in
  Quaternion_mul q (conjugate q) = Quaternion_default.
Proof. vm_compute; reflexivity. Qed.

(** *** The same product on binary32 *)

Section B32Sign.
Let p := B32.prec.
Let e := B32.emax.

(** The sign given to the rounding only decides the sign of the result. *)
Lemma binary_round_aux_negb (s : bool) (m ex : Z) (l : location) :
  binary_round_aux p e (negb s) m ex l
  = SFopp (binary_round_aux p e s m ex l).
Proof.
  unfold binary_round_aux.
  destruct (shr_fexp p e m ex l) as [mrs' e'].
  destruct (shr_fexp p e _ e' loc_Exact) as [mrs'' e''].
  destruct (shr_m mrs''); [reflexivity | | reflexivity].
  destruct (Z.leb e'' (Z.sub e p)); reflexivity.
Qed.

Lemma SFmul_opp_l (x y : spec_float) :
  SFmul p e (SFopp x) y = SFopp (SFmul p e x y).
Proof.
  destruct x as [sx | sx | | sx mx ex], y as [sy | sy | | sy my ey];
    cbn [SFmul SFopp]; try reflexivity;
    try (destruct sx, sy; reflexivity).
  replace (xorb (negb sx) sy) with (negb (xorb sx sy))
    by (destruct sx, sy; reflexivity).
  apply binary_round_aux_negb.
Qed.

Lemma SFsub_opp_r (x y : spec_float) :
  SFsub p e x (SFopp y) = SFadd p e x y.
Proof.
  destruct x as [sx | sx | | sx mx ex], y as [sy | sy | | sy my ey];
    cbn [SFsub SFadd SFopp]; try reflexivity;
    try (destruct sx, sy; reflexivity);
    destruct sy; reflexivity.
Qed.

End B32Sign.

(** On binary32 the scalar part of [q * q.conjugate()] is [q.normSqr()],
    bit for bit and for every [q]. *)
Lemma mul_conjugate_scalar_b32 (q : Quaternion B32.float) :
  q_w (Quaternion_mul q (conjugate q)) = Quaternion_normSqr q.
Proof.
  destruct q as [w x y z].
  unfold Quaternion_mul, conjugate, Quaternion_normSqr, sqr.
  cbn [q_w q_x q_y q_z fadd fsub fmul fneg B32.ops].
  now rewrite !SFmul_opp_l, !SFsub_opp_r.
Qed.

(** The vector part need not vanish bit for bit: for
    (sqrt 0.5, 2^-17, sqrt 0.5, 2^-17) the product is
    (0.99999994, 0, 2^-34, 0), within 1e-5 of the identity. *)
Example mul_conjugate_b32_rounding :
  let q : Quaternion B32.float :=
    mkQuaternion (fsqrt lit05) (B32.lit 1 (-17))
                 (fsqrt lit05) (B32.lit 1 (-17)) in
  Quaternion_mul q (conjugate q)
  = mkQuaternion (S754_finite false 16777215 (-24)) lit0
                 (S754_finite false 8388608 (-57)) lit0
  /\ Tol.Quaternion_close Tol.tol_1e_5
       (Quaternion_mul q (conjugate q)) Quaternion_default = true.
Proof. split; vm_compute; reflexivity. Qed.

(** ** Quaternion to matrix and back *)

(** C1, at the unit quaternion (1/2, 1/2, 1/2, 1/2) on binary32:
    [toRotationMatrix] has 1/2 on the diagonal where the rotation matrix
    has 0, and [fromMatrix] of it is about (0.79, 0.16, 0.16, 0.16), which
    is within 1e-5 of neither [q] nor [-q]. *)
Theorem C1_roundtrip_at_q_half :
  Quaternion_normSqr q_half = lit1
  /\ SFleb lit0 (q_w q_half) = true
  /\ toRotationMatrix q_half
     = Matrix3x3_new lit05 lit0 lit05 lit05 lit05 lit0 lit0 lit05 lit05
  /\ fromMatrix Quaternion_default (toRotationMatrix q_half)
     = mkQuaternion (S754_finite false 13263554 (-24))
                    (S754_finite false 10610843 (-26))
                    (S754_finite false 10610843 (-26))
                    (S754_finite false 10610843 (-26))
  /\ Tol.Quaternion_close_up_to_sign Tol.tol_1e_5
       (fromMatrix Quaternion_default (toRotationMatrix q_half)) q_half
     = false.
Proof. repeat split; vm_compute; reflexivity. Qed.

(** In exact arithmetic the matrix built by [toRotationMatrix] has trace
    3 - 2 (x^2 + y^2 + z^2); a rotation matrix has 3 - 4 (x^2 + y^2 + z^2). *)
Lemma toRotationMatrix_trace_exact (q : Quaternion R) :
  trace (toRotationMatrix q)
  = (3 - 2 * (q_x q * q_x q + q_y q * q_y q + q_z q * q_z q))%R.
Proof.
  destruct q as [w x y z].
  unfold trace, coeff, toRotationMatrix, sqr. cbn. ring.
Qed.

(** Hence, for every unit quaternion, the scalar part that [fromMatrix]
    reads back has square (1 + w^2) / 2. *)
Lemma roundtrip_scalar_part_exact (r q : Quaternion R) :
  Quaternion_normSqr q = 1%R ->
  let w' := q_w (fromMatrix r (toRotationMatrix q)) in
  (w' * w' = (1 + q_w q * q_w q) / 2)%R.
Proof.
  intros Hq. pose proof (toRotationMatrix_trace_exact q) as Ht.
  unfold Quaternion_normSqr, sqr in Hq. cbn in Hq.
  assert (Hpos : (0 < trace (toRotationMatrix q))%R).
  { rewrite Ht. nra. }
  unfold fromMatrix. cbn zeta.
  set (t := trace (toRotationMatrix q)) in *. exact_arith.
  unfold Exact.Rgtb. destruct (Rlt_dec 0 t); [| contradiction].
  cbn [q_w].
  replace (1 / 2 * sqrt (t + 1) * (1 / 2 * sqrt (t + 1)))%R
    with (sqrt (t + 1) * sqrt (t + 1) / 4)%R by field.
  rewrite sqrt_sqrt by lra. rewrite Ht. nra.
Qed.

(** For a unit quaternion other than (1, 0, 0, 0) and (-1, 0, 0, 0), exact
    arithmetic does not give back the scalar part, with either sign. *)
Lemma roundtrip_scalar_part_differs_exact (r q : Quaternion R) :
  Quaternion_normSqr q = 1%R ->
  (q_w q * q_w q <> 1)%R ->
  q_w (fromMatrix r (toRotationMatrix q)) <> q_w q
  /\ q_w (fromMatrix r (toRotationMatrix q)) <> (- q_w q)%R.
Proof.
  intros Hq Hw. pose proof (@roundtrip_scalar_part_exact r q Hq) as E.
  cbn zeta in E. split; intros Heq; rewrite Heq in E; apply Hw; nra.
Qed.

(** ** [fromMatrix], the branch for trace <= 0 *)

Section FromMatrixFacts.
Context {F : Type} `{FloatOps F}.
Local Open Scope fl_scope.

Lemma pick_diag_range (mat : Matrix3x3 F) :
  pick_diag mat = 0%nat \/ pick_diag mat = 1%nat \/ pick_diag mat = 2%nat.
Proof.
  unfold pick_diag.
  destruct (coeff mat 1 1 > coeff mat 0 0); cbn zeta;
    match goal with |- context [if ?b then _ else _] => destruct b end;
    auto.
Qed.

(** First seen wins: index 1 needs cell (1,1) greater than cell (0,0), and
    index 2 needs cell (2,2) greater than the cell held so far. *)
Lemma pick_diag_ties (mat : Matrix3x3 F) :
  (coeff mat 1 1 > coeff mat 0 0) = false ->
  (coeff mat 2 2 > coeff mat 0 0) = false ->
  pick_diag mat = 0%nat.
Proof. intros H10 H20. unfold pick_diag. now rewrite H10, H20. Qed.

(** What the branch stores, by the index chosen.  With [set] numbering
    w, x, y, z from 0, the square-root term goes to w, x or y (and is
    overwritten when it lands on w), and z is never written. *)
Lemma fromMatrix_branch2 (q : Quaternion F) (mat : Matrix3x3 F) :
  (trace mat > lit0) = false ->
  fromMatrix q mat =
  match pick_diag mat with
  | 0 =>
      let t := lit05 / fsqrt (coeff mat 0 0 - coeff mat 1 1
                              - coeff mat 2 2 + lit1) in
      mkQuaternion ((coeff mat 2 1 - coeff mat 1 2) * t)
                   ((coeff mat 1 0 + coeff mat 0 1) * t)
                   ((coeff mat 2 0 + coeff mat 0 2) * t)
                   (q_z q)
  | 1 =>
      let s := fsqrt (coeff mat 1 1 - coeff mat 2 2
                      - coeff mat 0 0 + lit1) in
      let t := lit05 / s in
      mkQuaternion ((coeff mat 0 1 + coeff mat 1 0) * t)
                   (lit05 * s)
                   ((coeff mat 2 1 + coeff mat 1 2) * t)
                   (q_z q)
  | _ =>
      let s := fsqrt (coeff mat 2 2 - coeff mat 0 0
                      - coeff mat 1 1 + lit1) in
      let t := lit05 / s in
      mkQuaternion ((coeff mat 0 2 + coeff mat 2 0) * t)
                   ((coeff mat 1 2 + coeff mat 2 1) * t)
                   (lit05 * s)
                   (q_z q)
  end.
Proof.
  intros Ht. unfold fromMatrix, pick_diag. rewrite Ht. cbn zeta.
  destruct (coeff mat 1 1 > coeff mat 0 0);
    match goal with |- context [if ?b then _ else _] => destruct b end;
    reflexivity.
Qed.

Lemma fromMatrix_branch2_keeps_z (q : Quaternion F) (mat : Matrix3x3 F) :
  (trace mat > lit0) = false -> q_z (fromMatrix q mat) = q_z q.
Proof.
  intros Ht. rewrite (fromMatrix_branch2 q mat Ht).
  destruct (pick_diag_range mat) as [E | [E | E]]; rewrite E; reflexivity.
Qed.

End FromMatrixFacts.

(** In exact arithmetic the index chosen holds a largest diagonal cell. *)
Lemma pick_diag_max_exact (m : Matrix3x3 R) :
  let i := pick_diag m in
  (coeff m 0 0 <= coeff m i i /\ coeff m 1 1 <= coeff m i i
   /\ coeff m 2 2 <= coeff m i i)%R.
Proof.
  unfold pick_diag. exact_arith. unfold Exact.Rgtb.
  destruct (Rlt_dec (coeff m 0 0) (coeff m 1 1)); cbn zeta;
    match goal with |- context [Rlt_dec ?a ?b] => destruct (Rlt_dec a b) end;
    repeat split; lra.
Qed.

(** C2, at the half turn about x, diag(1, -1, -1), on binary32 and from a
    default-constructed receiver: the trace is not positive, index 0 is
    chosen and the square-root term is 2; as specified the result is
    (0, 1, 0, 0), the x axis; [fromMatrix] returns (0, 0, 0, 0). *)
Theorem C2_fromMatrix_at_half_turn_x :
  is_rotation m_rot_x_half = true
  /\ (trace m_rot_x_half > lit0)%fl = false
  /\ pick_diag m_rot_x_half = 0%nat
  /\ fromMatrix_branch2_as_specified Quaternion_default m_rot_x_half
     = mkQuaternion lit0 lit1 lit0 lit0
  /\ fromMatrix Quaternion_default m_rot_x_half
     = mkQuaternion lit0 lit0 lit0 lit0.
Proof. repeat split; vm_compute; reflexivity. Qed.

(** ** [toQuaternion] against [fromMatrix] *)

(** In exact arithmetic and for every matrix of positive trace,
    [toQuaternion] is the conjugate of the normalised [fromMatrix]: the
    scalar parts agree and the three vector components are opposite. *)
Lemma toQuaternion_conjugate_exact (r : Quaternion R) (m : Matrix3x3 R) :
  (0 < trace m)%R ->
  toQuaternion m = conjugate (Quaternion_normalised (fromMatrix r m)).
Proof.
  intros Ht. unfold toQuaternion, fromMatrix. cbn zeta.
  set (t := trace m) in *. exact_arith.
  unfold Exact.Rgtb. destruct (Rlt_dec 0 t); [| contradiction].
  assert (Hs : (0 < sqrt (t + 1))%R) by (apply sqrt_lt_R0; lra).
  replace (sqrt (1 + t)) with (sqrt (t + 1)) by (f_equal; ring).
  set (s := sqrt (t + 1)) in *.
  unfold Quaternion_normalised, Quaternion_norm, Quaternion_normSqr,
    Quaternion_div, conjugate, sqr.
  cbn [q_w q_x q_y q_z]. exact_arith.
  assert (E : forall a b : R,
             ((a - b) / (1 / 2 * s * 4) = - ((b - a) * (1 / 2 / s)))%R).
  { intros a b. field. lra. }
  rewrite !E, !Rmult_opp_opp.
  f_equal; unfold Rdiv; ring.
Qed.

(** C4, at the quarter turn about z on binary32: a rotation matrix of
    trace 1, for which [toQuaternion] gives z = -0.7071068 and [fromMatrix]
    gives z = +0.70710677. *)
Theorem C4_toQuaternion_fromMatrix_at_quarter_turn_z :
  is_rotation m_rot_z_quarter = true
  /\ (trace m_rot_z_quarter > lit0)%fl = true
  /\ toQuaternion m_rot_z_quarter
     = mkQuaternion (S754_finite false 11863284 (-24)) lit0 lit0
                    (S754_finite true 11863284 (-24))
  /\ fromMatrix Quaternion_default m_rot_z_quarter
     = mkQuaternion (S754_finite false 11863283 (-24)) lit0 lit0
                    (S754_finite false 11863283 (-24))
  /\ Tol.Quaternion_close Tol.tol_1e_5
       (toQuaternion m_rot_z_quarter)
       (fromMatrix Quaternion_default m_rot_z_quarter) = false.
Proof. repeat split; vm_compute; reflexivity. Qed.

Lemma fromMatrix_branch1_exact (r : Quaternion R) (m : Matrix3x3 R) :
  (0 < trace m)%R ->
  fromMatrix r m
  = let s := sqrt (trace m + 1) in
    mkQuaternion (1 / 2 * s)%R
                 ((coeff m 2 1 - coeff m 1 2) * (1 / 2 / s))%R
                 ((coeff m 0 2 - coeff m 2 0) * (1 / 2 / s))%R
                 ((coeff m 1 0 - coeff m 0 1) * (1 / 2 / s))%R.
Proof.
  intros Ht. unfold fromMatrix. cbn zeta. exact_arith.
  unfold Exact.Rgtb. destruct (Rlt_dec 0 (trace m)); [reflexivity |].
  contradiction.
Qed.

(** So, in exact arithmetic, the two conversions give different z
    components on every matrix of positive trace whose cells (1,0) and
    (0,1) differ. *)
Lemma toQuaternion_fromMatrix_differ_exact
      (r : Quaternion R) (m : Matrix3x3 R) :
  (0 < trace m)%R ->
  coeff m 1 0 <> coeff m 0 1 ->
  q_z (toQuaternion m) <> q_z (fromMatrix r m).
Proof.
  intros Ht Hne. rewrite (toQuaternion_conjugate_exact r Ht).
  rewrite (fromMatrix_branch1_exact r Ht). cbn zeta.
  assert (Hs : (0 < sqrt (trace m + 1))%R) by (apply sqrt_lt_R0; lra).
  set (s := sqrt (trace m + 1)) in *.
  unfold conjugate, Quaternion_normalised, Quaternion_div, Quaternion_norm,
    Quaternion_normSqr, sqr.
  cbn [q_w q_x q_y q_z]. exact_arith.
  set (zf := ((coeff m 1 0 - coeff m 0 1) * (1 / 2 / s))%R).
  match goal with |- (- (zf / sqrt ?a))%R <> zf => set (N := a) end.
  assert (HN : (0 < N)%R).
  { subst N. assert (0 < 1 / 2 * s * (1 / 2 * s))%R by nra.
    match goal with
    | |- (0 < _ + ?a * ?a + ?b * ?b + ?c * ?c)%R =>
        pose proof (Rle_0_sqr a) as Ha; pose proof (Rle_0_sqr b) as Hb;
        pose proof (Rle_0_sqr c) as Hc
    end.
    unfold Rsqr in *. lra. }
  assert (Hu : (0 < / sqrt N)%R)
    by (apply Rinv_0_lt_compat, sqrt_lt_R0, HN).
  assert (Hz : zf <> 0%R).
  { subst zf. apply Rmult_integral_contrapositive_currified.
    - lra.
    - unfold Rdiv. apply Rmult_integral_contrapositive_currified; [lra |].
      apply Rinv_neq_0_compat. lra. }
  unfold Rdiv. intros E. apply Hz.
  assert (E' : (zf * (1 + / sqrt N) = 0)%R) by lra.
  apply Rmult_integral in E'. destruct E' as [E' | E']; [exact E' | lra].
Qed.

(** ** More laws of binary32 *)

Section B32Algebra.
Let p := B32.prec.
Let e := B32.emax.

Lemma SFopp_involutive (x : spec_float) : SFopp (SFopp x) = x.
Proof. destruct x as [s | s | | s m ex]; cbn; now rewrite ?negb_involutive. Qed.

Lemma SFmul_comm (x y : spec_float) : SFmul p e x y = SFmul p e y x.
Proof.
  destruct x as [sx | sx | | sx mx ex], y as [sy | sy | | sy my ey];
    cbn [SFmul]; try reflexivity;
    try (now rewrite xorb_comm).
  now rewrite xorb_comm, Pos.mul_comm, Z.add_comm.
Qed.

Lemma SFmul_opp_r (x y : spec_float) :
  SFmul p e x (SFopp y) = SFopp (SFmul p e x y).
Proof. now rewrite SFmul_comm, SFmul_opp_l, SFmul_comm. Qed.

Lemma SFmul_opp_opp (x y : spec_float) :
  SFmul p e (SFopp x) (SFopp y) = SFmul p e x y.
Proof. now rewrite SFmul_opp_l, SFmul_opp_r, SFopp_involutive. Qed.

Lemma SFadd_opp_r (x y : spec_float) :
  SFadd p e x (SFopp y) = SFsub p e x y.
Proof. now rewrite <- SFsub_opp_r, SFopp_involutive. Qed.

Lemma binary_round_negb (s : bool) (m : positive) (ex : Z) :
  binary_round p e (negb s) m ex = SFopp (binary_round p e s m ex).
Proof.
  unfold binary_round.
  destruct (shl_align m ex _) as [mz ez].
  apply binary_round_aux_negb.
Qed.

Lemma binary_normalize_opp (d ex : Z) :
  same_or_zeros (binary_normalize p e (- d) ex false)
                (SFopp (binary_normalize p e d ex false)).
Proof.
  destruct d as [| m | m]; cbn [Z.opp binary_normalize].
  - right. now exists false, true.
  - left. apply (binary_round_negb false).
  - left. now rewrite (binary_round_negb false), SFopp_involutive.
Qed.

(** [x - y] and [-(y - x)] differ at most by the sign of a zero. *)
Lemma SFsub_antisym (x y : spec_float) :
  same_or_zeros (SFsub p e x y) (SFopp (SFsub p e y x)).
Proof.
  destruct x as [sx | sx | | sx mx ex], y as [sy | sy | | sy my ey];
    cbn [SFsub SFopp];
    try (left; reflexivity);
    try (destruct sx, sy; cbn;
         first [ left; reflexivity
               | right; eexists; eexists; split; reflexivity ]);
    try (left; now rewrite ?negb_involutive).
  rewrite (Z.min_comm ey ex).
  set (ez := Z.min ex ey).
  set (A := cond_Zopp sx (Zpos (fst (shl_align mx ex ez)))).
  set (B := cond_Zopp sy (Zpos (fst (shl_align my ey ez)))).
  replace (Z.sub A B) with (- (Z.sub B A))%Z by lia.
  apply binary_normalize_opp.
Qed.

(** [x - x] is [+0] for every finite [x]. *)
Lemma SFsub_diag (x : spec_float) :
  B32.is_finite x = true -> SFsub p e x x = S754_zero false.
Proof.
  destruct x as [s | s | | s m ex]; cbn [B32.is_finite SFsub];
    try discriminate; intros _.
  - now destruct s.
  - now rewrite Z.sub_diag.
Qed.

Lemma SFeqb_refl (x : spec_float) : SFeqb x x = negb (is_nan x).
Proof.
  destruct x as [s | s | | s m ex]; unfold SFeqb; cbn;
    try reflexivity; try (now destruct s).
  rewrite Z.compare_refl.
  assert (E : Pos.compare_cont Eq m m = Eq) by apply Pos.compare_refl.
  destruct s; now rewrite E.
Qed.

Lemma SFeqb_zero_l (s : bool) (x : spec_float) :
  SFeqb (S754_zero s) x = is_zero x.
Proof. destruct x as [s' | s' | | s' m ex]; unfold SFeqb; cbn;
  try reflexivity; now destruct s'. Qed.

Lemma SFeqb_zero_r (x : spec_float) (s : bool) :
  SFeqb x (S754_zero s) = is_zero x.
Proof. destruct x as [s' | s' | | s' m ex]; unfold SFeqb; cbn;
  try reflexivity; now destruct s'. Qed.

End B32Algebra.

(** Reading the interface at binary32. *)
Ltac b32_arith :=
  cbn [fadd fsub fmul fdiv fneg fsqrt feqb fgtb lit0 B32.ops] in *.

(** ** More on vectors *)

(** X1. [a.cross(b)] and [-(b.cross(a))] have the same components: bit for
    bit on binary32 except that a zero may differ in sign, and exactly in
    exact arithmetic. *)
Theorem X1_cross_anticommutes :
  (forall a b : Vector B32.float,
      same_or_zeros (v_x (Vector_cross a b))
                    (v_x (Vector_neg (Vector_cross b a)))
      /\ same_or_zeros (v_y (Vector_cross a b))
                       (v_y (Vector_neg (Vector_cross b a)))
      /\ same_or_zeros (v_z (Vector_cross a b))
                       (v_z (Vector_neg (Vector_cross b a))))
  /\ (forall a b : Vector R,
         Vector_cross a b = Vector_neg (Vector_cross b a)).
Proof.
  split.
  - intros [ax ay az] [bx by_ bz].
    unfold Vector_cross, Vector_neg. cbn [v_x v_y v_z]. b32_arith.
    rewrite (SFmul_comm by_ az), (SFmul_comm bz ay), (SFmul_comm bz ax),
      (SFmul_comm bx az), (SFmul_comm bx ay), (SFmul_comm by_ ax).
    repeat split; apply SFsub_antisym.
  - intros [ax ay az] [bx by_ bz].
    unfold Vector_cross, Vector_neg. cbn [v_x v_y v_z]. exact_arith.
    f_equal; ring.
Qed.

(** X2. On binary32, when the three products y*z, z*x and x*y of the
    components of [a] are finite, [a.cross(a)] is (+0, +0, +0), which
    [isNil] accepts. *)
Theorem X2_cross_self_b32 :
  forall a : Vector B32.float,
    B32.is_finite (v_y a * v_z a)%fl = true ->
    B32.is_finite (v_z a * v_x a)%fl = true ->
    B32.is_finite (v_x a * v_y a)%fl = true ->
    Vector_cross a a = Vector_default
    /\ Vector_isNil (Vector_cross a a) = true.
Proof.
  intros [x y z]. cbn [v_x v_y v_z]. b32_arith. intros Hyz Hzx Hxy.
  assert (E : Vector_cross (mkVector x y z) (mkVector x y z)
              = Vector_default).
  { unfold Vector_cross, Vector_default. cbn [v_x v_y v_z]. b32_arith.
    rewrite (SFmul_comm z y), (SFmul_comm x z), (SFmul_comm y x).
    now rewrite !SFsub_diag. }
  rewrite E. split; reflexivity.
Qed.

Lemma X2_cross_self_b32_witness :
  let a : Vector B32.float :=
    mkVector (B32.lit 1 0) (B32.lit 2 0) (B32.lit 3 0) in
  Vector_cross a a = Vector_default
  /\ Vector_isNil (Vector_cross a a) = true.
Proof.
  intro a. apply (@X2_cross_self_b32 a); reflexivity.
Defined.

(** The sum of three squares is positive unless it is zero. *)
Lemma sum_sqr3_pos (x y z : R) :
  (x * x + y * y + z * z <> 0 -> 0 < x * x + y * y + z * z)%R.
Proof. intros Hn. nra. Qed.

(** X3. In exact arithmetic, a vector whose squared norm is not zero is
    sent by [normalised()], and by the in-place [normalise()], to a vector
    of norm 1. *)
Theorem X3_normalised_unit_exact :
  forall v : Vector R,
    Vector_normSqr v <> 0%R ->
    Vector_norm (Vector_normalised v) = 1%R
    /\ Vector_norm (Vector_normalise v) = 1%R.
Proof.
  intros [x y z] Hn.
  assert (E : Vector_normalise (mkVector x y z)
              = Vector_normalised (mkVector x y z)) by reflexivity.
  rewrite E.
  cut (Vector_norm (Vector_normalised (mkVector x y z)) = 1%R);
    [intros G; split; exact G |].
  change (Vector_normSqr (mkVector x y z)) with (x * x + y * y + z * z)%R
    in Hn.
  apply sum_sqr3_pos in Hn.
  unfold Vector_norm, Vector_normalised, Vector_div, Vector_norm,
    Vector_normSqr, sqr. cbn [v_x v_y v_z]. exact_arith.
  set (N := (x * x + y * y + z * z)%R) in *.
  assert (Hs : (0 < sqrt N)%R) by (apply sqrt_lt_R0, Hn).
  replace (x / sqrt N * (x / sqrt N) + y / sqrt N * (y / sqrt N)
           + z / sqrt N * (z / sqrt N))%R
    with (N / (sqrt N * sqrt N))%R by (subst N; field; lra).
  rewrite sqrt_sqrt by lra.
  replace (N / N)%R with 1%R by (field; lra).
  apply sqrt_1.
Qed.

Lemma X3_normalised_unit_exact_witness :
  Vector_norm (Vector_normalised v_1_2_2) = 1%R
  /\ Vector_norm (Vector_normalise v_1_2_2) = 1%R.
Proof.
  apply (@X3_normalised_unit_exact v_1_2_2).
  unfold v_1_2_2, Vector_normSqr, sqr. cbn. lra.
Defined.

(** X4. On binary32, a vector that [isNil] accepts (three zeros, of any
    signs) is sent by [normalised()] to (NaN, NaN, NaN). *)
Theorem X4_normalised_nil_is_nan :
  forall v : Vector B32.float,
    Vector_isNil v = true ->
    Vector_normalised v = mkVector S754_nan S754_nan S754_nan.
Proof.
  intros [x y z]. unfold Vector_isNil. cbn [v_x v_y v_z]. b32_arith.
  rewrite !SFeqb_zero_r. intros Hnil.
  apply andb_prop in Hnil. destruct Hnil as [Hxy Hz].
  apply andb_prop in Hxy. destruct Hxy as [Hx Hy].
  destruct x as [sx | | |]; try discriminate Hx.
  destruct y as [sy | | |]; try discriminate Hy.
  destruct z as [sz | | |]; try discriminate Hz.
  destruct sx, sy, sz; reflexivity.
Qed.

Lemma X4_normalised_nil_is_nan_witness :
  Vector_normalised (mkVector (S754_zero true) lit0 (S754_zero true))
  = mkVector S754_nan S754_nan S754_nan.
Proof.
  apply (@X4_normalised_nil_is_nan
           (mkVector (S754_zero true) lit0 (S754_zero true))).
  reflexivity.
Defined.

(** X5. On binary32, after [noZeros()] no component compares equal to
    zero; a component that did not compare equal to zero (NaN included) is
    kept bit for bit, one that did (+0 or -0) is 1; and a second call
    changes nothing. *)
Theorem X5_noZeros_b32 :
  forall v : Vector B32.float,
    ((v_x (noZeros v) == lit0) = false
     /\ (v_y (noZeros v) == lit0) = false
     /\ (v_z (noZeros v) == lit0) = false)%fl
    /\ (v_x (noZeros v) = if is_zero (v_x v) then lit1 else v_x v)
    /\ (v_y (noZeros v) = if is_zero (v_y v) then lit1 else v_y v)
    /\ (v_z (noZeros v) = if is_zero (v_z v) then lit1 else v_z v)
    /\ noZeros (noZeros v) = noZeros v.
Proof.
  assert (Z1 : is_zero (lit1 (F := B32.float)) = false) by reflexivity.
  intros [x y z]. unfold noZeros. cbn [v_x v_y v_z]. b32_arith.
  rewrite !SFeqb_zero_r.
  destruct (is_zero x) eqn:Ex; cbn [v_x v_y v_z];
    destruct (is_zero y) eqn:Ey; cbn [v_x v_y v_z];
    destruct (is_zero z) eqn:Ez; cbn [v_x v_y v_z];
    repeat (rewrite ?SFeqb_zero_r, ?Ex, ?Ey, ?Ez, ?Z1; cbn [v_x v_y v_z]);
    repeat split; reflexivity.
Qed.

(** X6. The free operators with a float on the left hand the work to the
    member operators with the float on the right.  In exact arithmetic
    that is [f * v] and [f + v], but for [f - v] the result is [v - f],
    the opposite of the difference asked for. *)
Theorem X6_float_on_the_left_exact :
  forall (f : R) (v : Vector R),
    float_mul_Vector f v
    = mkVector (f * v_x v)%R (f * v_y v)%R (f * v_z v)%R
    /\ float_add_Vector f v
       = mkVector (f + v_x v)%R (f + v_y v)%R (f + v_z v)%R
    /\ float_sub_Vector f v
       = Vector_neg (mkVector (f - v_x v)%R (f - v_y v)%R (f - v_z v)%R).
Proof.
  intros f [x y z].
  unfold float_mul_Vector, float_add_Vector, float_sub_Vector,
    Vector_scale, Vector_add_float, Vector_sub_float, Vector_neg.
  cbn [v_x v_y v_z]. exact_arith.
  repeat split; f_equal; ring.
Qed.

(** ** More on quaternions *)

Ltac quat_unfold :=
  unfold normalize, Quaternion_div_assign, Quaternion_normalised,
    Quaternion_div, Quaternion_norm, Quaternion_normSqr, Vector_normSqr,
    axis, Quaternion_mul, Quaternion_mul_Vector, Vector_mul_Quaternion,
    conjugate, Quaternion_neg, Quaternion_default, sqr;
  cbn [q_w q_x q_y q_z v_x v_y v_z].

Lemma sum_sqr4_pos (w x y z : R) :
  (w * w + x * x + y * y + z * z <> 0
   -> 0 < w * w + x * x + y * y + z * z)%R.
Proof. intros Hn. nra. Qed.

(** In exact arithmetic [normalised()] divides the squared norm by
    itself. *)
Lemma normalised_normSqr_exact (q : Quaternion R) :
  Quaternion_normSqr q <> 0%R ->
  Quaternion_normSqr (Quaternion_normalised q) = 1%R.
Proof.
  destruct q as [w x y z]. intros Hn.
  change (Quaternion_normSqr (mkQuaternion w x y z))
    with (w * w + x * x + y * y + z * z)%R in Hn.
  apply sum_sqr4_pos in Hn.
  quat_unfold. exact_arith.
  set (N := (w * w + x * x + y * y + z * z)%R) in *.
  assert (Hs : (0 < sqrt N)%R) by (apply sqrt_lt_R0, Hn).
  replace (w / sqrt N * (w / sqrt N) + x / sqrt N * (x / sqrt N)
           + y / sqrt N * (y / sqrt N) + z / sqrt N * (z / sqrt N))%R
    with (N / (sqrt N * sqrt N))%R by (subst N; field; lra).
  rewrite sqrt_sqrt by lra. field. lra.
Qed.

(** X7. In exact arithmetic, a quaternion whose squared norm is not zero
    is sent by [normalised()], and by the in-place [normalize()], to a
    quaternion of norm 1. *)
Theorem X7_quaternion_normalised_unit_exact :
  forall q : Quaternion R,
    Quaternion_normSqr q <> 0%R ->
    Quaternion_norm (Quaternion_normalised q) = 1%R
    /\ Quaternion_norm (normalize q) = 1%R.
Proof.
  intros q Hn.
  assert (E : normalize q = Quaternion_normalised q) by reflexivity.
  rewrite E.
  cut (Quaternion_norm (Quaternion_normalised q) = 1%R);
    [intros G; split; exact G |].
  unfold Quaternion_norm. exact_arith.
  rewrite (normalised_normSqr_exact Hn). apply sqrt_1.
Qed.

Lemma X7_quaternion_normalised_unit_exact_witness :
  Quaternion_norm (Quaternion_normalised q_1_2_2_4) = 1%R
  /\ Quaternion_norm (normalize q_1_2_2_4) = 1%R.
Proof.
  apply (@X7_quaternion_normalised_unit_exact q_1_2_2_4).
  unfold q_1_2_2_4, Quaternion_normSqr, sqr. cbn. lra.
Defined.

(** X8. In exact arithmetic the squared norm of a Hamilton product is the
    product of the squared norms; so the product of two quaternions of
    squared norm 1 has squared norm 1. *)
Theorem X8_normSqr_mul_exact :
  forall p q : Quaternion R,
    Quaternion_normSqr (Quaternion_mul p q)
    = (Quaternion_normSqr p * Quaternion_normSqr q)%R.
Proof.
  intros [w1 x1 y1 z1] [w2 x2 y2 z2]. quat_unfold. exact_arith. ring.
Qed.

(** X9. In exact arithmetic the conjugate of a product is the product of
    the conjugates in the opposite order. *)
Theorem X9_conjugate_mul_exact :
  forall p q : Quaternion R,
    conjugate (Quaternion_mul p q)
    = Quaternion_mul (conjugate q) (conjugate p).
Proof.
  intros [w1 x1 y1 z1] [w2 x2 y2 z2]. quat_unfold. exact_arith.
  f_equal; ring.
Qed.

(** X10. On binary32 [conjugate()] and unary minus are involutions bit
    for bit, NaN and signed zeros included. *)
Theorem X10_conjugate_neg_involutive_b32 :
  forall q : Quaternion B32.float,
    conjugate (conjugate q) = q
    /\ Quaternion_neg (Quaternion_neg q) = q.
Proof.
  intros [w x y z]. quat_unfold. b32_arith.
  now rewrite !SFopp_involutive.
Qed.

(** X11. In exact arithmetic the default-constructed quaternion is neutral
    for the Hamilton product on both sides. *)
Theorem X11_default_neutral_exact :
  forall q : Quaternion R,
    Quaternion_mul Quaternion_default q = q
    /\ Quaternion_mul q Quaternion_default = q.
Proof.
  intros [w x y z]. quat_unfold. exact_arith.
  split; f_equal; ring.
Qed.

(** X12. [Vector::operator*(const Quaternion&)] returns, in every
    arithmetic, the very quaternion that [Quaternion::operator*(const
    Vector&)] returns for the same pair: [v * q] is [q * v].  In exact
    arithmetic both are the Hamilton product of [q] with the pure
    quaternion (0, v), in that order. *)
Theorem X12_vector_quaternion_products :
  (forall (F : Type) (O : FloatOps F) (v : Vector F) (q : Quaternion F),
      Vector_mul_Quaternion v q = Quaternion_mul_Vector q v)
  /\ (forall (v : Vector R) (q : Quaternion R),
         Quaternion_mul_Vector q v
         = Quaternion_mul q (mkQuaternion 0%R (v_x v) (v_y v) (v_z v))).
Proof.
  split.
  - intros F O v q. reflexivity.
  - intros [vx vy vz] [w x y z]. quat_unfold. exact_arith.
    f_equal; ring.
Qed.

(** The conjugation [q * v * q.conjugate()] in exact arithmetic: the
    scalar part vanishes and the squared length is scaled by the square of
    the squared norm of [q]. *)
Lemma conjugation_exact (q : Quaternion R) (v : Vector R) :
  let r := Quaternion_mul (Quaternion_mul_Vector q v) (conjugate q) in
  q_w r = 0%R
  /\ Vector_normSqr (axis r)
     = (Quaternion_normSqr q * Quaternion_normSqr q * Vector_normSqr v)%R.
Proof.
  destruct q as [w x y z], v as [vx vy vz]. cbn zeta.
  quat_unfold. exact_arith. split; ring.
Qed.

(** X13. In exact arithmetic and for [q] of squared norm 1, the two-step
    rotation [q * v * q.conjugate()] is a pure quaternion (scalar part 0)
    whose vector part has the squared length of [v]. *)
Theorem X13_rotation_by_conjugation_exact :
  forall (q : Quaternion R) (v : Vector R),
    Quaternion_normSqr q = 1%R ->
    q_w (Quaternion_mul (Quaternion_mul_Vector q v) (conjugate q)) = 0%R
    /\ Vector_normSqr
         (axis (Quaternion_mul (Quaternion_mul_Vector q v) (conjugate q)))
       = Vector_normSqr v.
Proof.
  intros q v Hq. destruct (conjugation_exact q v) as [Hw Hn].
  split; [exact Hw |]. rewrite Hn, Hq. ring.
Qed.

Lemma X13_rotation_by_conjugation_exact_witness :
  q_w (Quaternion_mul (Quaternion_mul_Vector q_3_4_5 v_1_2_2)
                      (conjugate q_3_4_5)) = 0%R
  /\ Vector_normSqr
       (axis (Quaternion_mul (Quaternion_mul_Vector q_3_4_5 v_1_2_2)
                             (conjugate q_3_4_5)))
     = Vector_normSqr v_1_2_2.
Proof.
  apply (@X13_rotation_by_conjugation_exact q_3_4_5 v_1_2_2).
  unfold q_3_4_5, Quaternion_normSqr, sqr. cbn. field.
Defined.

(** X14. On binary32 [q == q] is true exactly when no component of [q] is
    NaN, and [q != q] is its negation. *)
Theorem X14_eq_reflexive_iff_no_nan :
  forall q : Quaternion B32.float,
    Quaternion_eqb q q
    = negb (is_nan (q_w q) || is_nan (q_x q)
            || is_nan (q_y q) || is_nan (q_z q))
    /\ Quaternion_neqb q q
       = (is_nan (q_w q) || is_nan (q_x q)
          || is_nan (q_y q) || is_nan (q_z q)).
Proof.
  intros [w x y z]. unfold Quaternion_neqb, Quaternion_eqb.
  cbn [q_w q_x q_y q_z]. b32_arith. rewrite !SFeqb_refl.
  destruct (is_nan w), (is_nan x), (is_nan y), (is_nan z);
    split; reflexivity.
Qed.

Lemma SFeqb_one_inv (x : spec_float) :
  SFeqb x (lit1 (F := B32.float)) = true -> x = lit1.
Proof.
  change (lit1 (F := B32.float)) with (S754_finite false 8388608 (-23)).
  destruct x as [s | s | | s m ex]; unfold SFeqb, SFcompare;
    cbv beta iota;
    try discriminate; try (destruct s; discriminate).
  destruct s; [discriminate |].
  destruct (Z.compare ex (-23)) eqn:Ee; try discriminate.
  apply Z.compare_eq in Ee. subst ex.
  destruct (Pos.compare_cont Eq m 8388608) eqn:Em; try discriminate.
  apply Pos.compare_eq in Em. now subst m.
Qed.

(** X15. On binary32 [isUnit()] is true exactly for the quaternions with
    w = 1 and x, y, z zeros of any signs: it tests for the identity, not
    for unit norm. *)
Theorem X15_isUnit_iff_identity :
  forall q : Quaternion B32.float,
    isUnit q = true
    <-> (q_w q = lit1 /\ is_zero (q_x q) = true
         /\ is_zero (q_y q) = true /\ is_zero (q_z q) = true).
Proof.
  intros [w x y z]. unfold isUnit. cbn [q_w q_x q_y q_z]. b32_arith.
  rewrite !SFeqb_zero_r. split.
  - intros Hu.
    apply andb_prop in Hu. destruct Hu as [Hu Hz].
    apply andb_prop in Hu. destruct Hu as [Hu Hy].
    apply andb_prop in Hu. destruct Hu as [Hw Hx].
    apply SFeqb_one_inv in Hw. auto.
  - intros (Hw & Hx & Hy & Hz). subst w. now rewrite Hx, Hy, Hz.
Qed.

(** X16. [set(idx, value)] with an index of 4 or more leaves the
    quaternion as it was; with 0, 1, 2, 3 it writes w, x, y, z and nothing
    else. *)
Theorem X16_set_bounds :
  forall (F : Type) (O : FloatOps F) (q : Quaternion F) (idx : nat)
         (value : F),
    (4 <= idx -> Quaternion_set q idx value = q)
    /\ (idx < 4 ->
        nth idx [q_w (Quaternion_set q idx value);
                 q_x (Quaternion_set q idx value);
                 q_y (Quaternion_set q idx value);
                 q_z (Quaternion_set q idx value)] value = value
        /\ forall j, j <> idx ->
             nth j [q_w (Quaternion_set q idx value);
                    q_x (Quaternion_set q idx value);
                    q_y (Quaternion_set q idx value);
                    q_z (Quaternion_set q idx value)] value
             = nth j [q_w q; q_x q; q_y q; q_z q] value).
Proof.
  intros F O [w x y z] idx value. split.
  - intros Hi. do 4 (destruct idx as [| idx]; [lia |]). reflexivity.
  - intros Hi.
    destruct idx as [| [| [| [| idx]]]]; try lia;
      (split; [reflexivity |]);
      intros j Hj; destruct j as [| [| [| [| j]]]];
      try reflexivity; contradiction.
Qed.

Lemma X16_set_bounds_witness :
  Quaternion_set (Quaternion_default (F := B32.float)) 7 lit4
  = Quaternion_default
  /\ q_y (Quaternion_set (Quaternion_default (F := B32.float)) 2 lit4)
     = lit4.
Proof.
  destruct (@X16_set_bounds B32.float B32.ops Quaternion_default 7 lit4)
    as [H7 _].
  destruct (@X16_set_bounds B32.float B32.ops Quaternion_default 2 lit4)
    as [_ H2].
  split.
  - apply H7. lia.
  - destruct H2 as [H2 _]; [lia |]. exact H2.
Defined.

(** ** Euler angles, in exact arithmetic *)

Ltac exact_trig :=
  cbn [lit2 fcos fsin facos Exact_trig] in *.

(** X17. In exact arithmetic [fromAngles] returns a quaternion of squared
    norm 1 for all three angles, and the identity for (0, 0, 0). *)
Theorem X17_fromAngles_unit_exact :
  (forall roll pitch yaw : R,
      Quaternion_normSqr (fromAngles roll pitch yaw) = 1%R)
  /\ fromAngles 0%R 0%R 0%R = Quaternion_default.
Proof.
  split.
  - intros roll pitch yaw.
    unfold fromAngles, Quaternion_normSqr, sqr.
    cbn [q_w q_x q_y q_z]. exact_arith. exact_trig.
    pose proof (sin2_cos2 (roll / 2)) as HR.
    pose proof (sin2_cos2 (pitch / 2)) as HP.
    pose proof (sin2_cos2 (yaw / 2)) as HY.
    unfold Rsqr in HR, HP, HY.
    set (cR := cos (roll / 2)) in *. set (sR := sin (roll / 2)) in *.
    set (cP := cos (pitch / 2)) in *. set (sP := sin (pitch / 2)) in *.
    set (cY := cos (yaw / 2)) in *. set (sY := sin (yaw / 2)) in *.
    transitivity ((sR * sR + cR * cR) * (sP * sP + cP * cP)
                  * (sY * sY + cY * cY))%R; [ring |].
    rewrite HR, HP, HY. ring.
  - unfold fromAngles, Quaternion_default. cbn zeta. exact_arith. exact_trig.
    replace (0 / 2)%R with 0%R by field.
    rewrite cos_0, sin_0. f_equal; ring.
Qed.

(** X18. In exact arithmetic [angle()] in radians gives back a roll angle
    between 0 and 2 pi: [fromAngles(roll, 0, 0).angle()] is [roll]. *)
Theorem X18_angle_fromAngles_exact :
  forall roll : R,
    (0 <= roll <= 2 * PI)%R ->
    angle (fromAngles roll 0%R 0%R) false = roll.
Proof.
  intros roll Hr. unfold angle, fromAngles. cbn [q_w]. exact_arith.
  exact_trig.
  replace (0 / 2)%R with 0%R by field.
  rewrite cos_0, sin_0.
  replace (cos (roll / 2) * 1 * 1 + sin (roll / 2) * 0 * 0)%R
    with (cos (roll / 2)) by ring.
  rewrite acos_cos by lra. field.
Qed.

Lemma X18_angle_fromAngles_exact_witness :
  angle (fromAngles 1%R 0%R 0%R) false = 1%R.
Proof.
  apply (@X18_angle_fromAngles_exact 1%R).
  pose proof PI_RGT_0. pose proof PI2_3_2. unfold PI2 in *. lra.
Defined.

(** ** More on matrices *)

Section MatrixMoreFacts.
Context {F : Type} `{FloatOps F}.

Lemma transpose_nine (a0 a1 a2 a3 a4 a5 a6 a7 a8 : F) :
  transpose (mkMatrix3x3 [a0; a1; a2; a3; a4; a5; a6; a7; a8])
  = mkMatrix3x3 [a0; a3; a6; a1; a4; a7; a2; a5; a8].
Proof. reflexivity. Qed.

Lemma transpose_new (a0 a1 a2 a3 a4 a5 a6 a7 a8 : F) :
  transpose (Matrix3x3_new a0 a1 a2 a3 a4 a5 a6 a7 a8)
  = Matrix3x3_new a0 a3 a6 a1 a4 a7 a2 a5 a8.
Proof. reflexivity. Qed.

(** [transpose] builds nine cells whatever it is given. *)
Lemma transpose_wf (m : Matrix3x3 F) : Matrix3x3_wf (transpose m).
Proof. reflexivity. Qed.

Lemma merge_wf (v1 v2 v3 : Vector F) : Matrix3x3_wf (merge v1 v2 v3).
Proof. reflexivity. Qed.

End MatrixMoreFacts.

(** X19. On nine-cell matrices [transpose()] is an involution and swaps
    the two indices of every cell; the rows of the transpose are the
    columns of the matrix and conversely. *)
Theorem X19_transpose_involution :
  forall (F : Type) (O : FloatOps F) (m : Matrix3x3 F),
    Matrix3x3_wf m ->
    transpose (transpose m) = m
    /\ (forall r c, r < 3 -> c < 3 -> coeff (transpose m) r c = coeff m c r)
    /\ (forall i, i < 3 ->
          row (transpose m) i = col m i /\ col (transpose m) i = row m i).
Proof.
  intros F O m Hm. nine_cells m. rewrite !transpose_nine.
  split; [reflexivity | split].
  - intros r c Hr Hc.
    destruct r as [| [| [| r]]]; try lia;
      destruct c as [| [| [| c]]]; try lia; reflexivity.
  - intros i Hi.
    destruct i as [| [| [| i]]]; try lia; split; reflexivity.
Qed.

Lemma X19_transpose_involution_witness :
  transpose (transpose m_sample) = m_sample.
Proof.
  apply (@X19_transpose_involution B32.float B32.ops m_sample).
  reflexivity.
Defined.

(** X20. [merge(v1, v2, v3)] has the three vectors as its columns; it is
    what [fromVectors] with asRows = false leaves in a nine-cell receiver,
    and the transpose of what it leaves with asRows = true. *)
Theorem X20_merge_columns :
  forall (F : Type) (O : FloatOps F) (self : Matrix3x3 F)
         (v1 v2 v3 : Vector F),
    Matrix3x3_wf self ->
    (col (merge v1 v2 v3) 0 = v1 /\ col (merge v1 v2 v3) 1 = v2
     /\ col (merge v1 v2 v3) 2 = v3)
    /\ fromVectors self v1 v2 v3 false = merge v1 v2 v3
    /\ transpose (fromVectors self v1 v2 v3 true) = merge v1 v2 v3.
Proof.
  intros F O self [x1 y1 z1] [x2 y2 z2] [x3 y3 z3] Hself.
  unfold fromVectors. rewrite !reset_nine by assumption.
  cbn [v_x v_y v_z]. rewrite transpose_nine.
  repeat split; reflexivity.
Qed.

Lemma X20_merge_columns_witness :
  let v : Vector B32.float := mkVector lit1 lit05 lit4 in
  fromVectors identity v v v false = merge v v v.
Proof.
  intro v.
  destruct (@X20_merge_columns B32.float B32.ops identity v v v)
    as (_ & E & _); [reflexivity | exact E].
Defined.

(** X21. On a nine-cell matrix and with indices below 3, [set(r, c, v)]
    then [coeff(r', c')] reads [v] at the cell written and the old value
    at the eight others.  The column is not checked against 3: for a row
    [r] below 2, writing column [c + 3] of row [r] writes column [c] of
    row [r + 1]. *)
Theorem X21_set_then_coeff :
  forall (F : Type) (O : FloatOps F) (m : Matrix3x3 F)
         (r c r' c' : nat) (v : F),
    Matrix3x3_wf m -> r < 3 -> c < 3 -> r' < 3 -> c' < 3 ->
    coeff (Matrix3x3_set m r c v) r' c'
    = (if (r =? r') && (c =? c') then v else coeff m r' c')
    /\ (r < 2 ->
        Matrix3x3_set m r (c + 3) v = Matrix3x3_set m (r + 1) c v
        /\ coeff (Matrix3x3_set m r (c + 3) v) (r + 1) c = v)
    /\ Matrix3x3_wf (Matrix3x3_set m r c v).
Proof.
  intros F O m r c r' c' v Hm Hr Hc Hr' Hc'.
  split; [| split].
  - nine_cells m.
    destruct r as [| [| [| r]]]; try lia;
      destruct c as [| [| [| c]]]; try lia;
      destruct r' as [| [| [| r']]]; try lia;
      destruct c' as [| [| [| c']]]; try lia; reflexivity.
  - intros Hr2. split.
    + unfold Matrix3x3_set, index, MATRIX_COLS. do 2 f_equal. lia.
    + nine_cells m.
      destruct r as [| [| r]]; try lia;
        destruct c as [| [| [| c]]]; try lia; reflexivity.
  - unfold Matrix3x3_wf, Matrix3x3_set. cbn [members].
    now rewrite upd_length.
Qed.

Lemma X21_set_then_coeff_witness :
  coeff (Matrix3x3_set m_sample 1 2 lit05) 1 2 = lit05
  /\ coeff (Matrix3x3_set m_sample 1 2 lit05) 2 1 = coeff m_sample 2 1.
Proof.
  assert (Hs : Matrix3x3_wf m_sample) by reflexivity.
  destruct (@X21_set_then_coeff B32.float B32.ops m_sample 1 2 1 2 lit05)
    as (E1 & _); try lia; [exact Hs |].
  destruct (@X21_set_then_coeff B32.float B32.ops m_sample 1 2 2 1 lit05)
    as (E2 & _); try lia; [exact Hs |].
  split; [exact E1 | exact E2].
Defined.

(** X22. On nine-cell matrices the transpose has the same trace, in every
    arithmetic, and in exact arithmetic the same determinant. *)
Theorem X22_transpose_trace_det :
  (forall (F : Type) (O : FloatOps F) (m : Matrix3x3 F),
      Matrix3x3_wf m -> trace (transpose m) = trace m)
  /\ (forall m : Matrix3x3 R,
         Matrix3x3_wf m -> det (transpose m) = det m).
Proof.
  split.
  - intros F O m Hm. nine_cells m. reflexivity.
  - intros m Hm. nine_cells m. rewrite transpose_nine.
    unfold det, coeff. cbn. exact_arith. ring.
Qed.

Lemma X22_transpose_trace_det_witness :
  trace (transpose m_sample) = trace m_sample
  /\ det (transpose (identity (F := R))) = det (identity (F := R)).
Proof.
  destruct X22_transpose_trace_det as [Ht Hd].
  split.
  - apply (Ht B32.float B32.ops m_sample). reflexivity.
  - apply (Hd identity). reflexivity.
Defined.

(** X23. In exact arithmetic the identity matrix maps every vector to
    itself, and [M * v] with the transpose of [M] pairs the columns of [M]
    with [v]. *)
Theorem X23_mul_Vector_exact :
  (forall v : Vector R, Matrix3x3_mul_Vector identity v = v)
  /\ (forall (m : Matrix3x3 R) (v : Vector R),
         Matrix3x3_wf m ->
         Matrix3x3_mul_Vector (transpose m) v
         = mkVector (dot3 (col m 0) v) (dot3 (col m 1) v)
                    (dot3 (col m 2) v)).
Proof.
  split.
  - intros [x y z]. unfold Matrix3x3_mul_Vector, coeff. cbn. exact_arith.
    f_equal; ring.
  - intros m [x y z] Hm. nine_cells m. rewrite transpose_nine. reflexivity.
Qed.

Lemma X23_mul_Vector_exact_witness :
  Matrix3x3_mul_Vector (transpose (identity (F := R))) v_1_2_2
  = mkVector (dot3 (col identity 0) v_1_2_2) (dot3 (col identity 1) v_1_2_2)
             (dot3 (col identity 2) v_1_2_2).
Proof.
  destruct X23_mul_Vector_exact as [_ Hm].
  apply (Hm identity v_1_2_2). reflexivity.
Defined.

(** ** More on the conversions *)

(** X24. On binary32 [q] and [-q] have the same [toRotationMatrix()], bit
    for bit. *)
Theorem X24_toRotationMatrix_neg_b32 :
  forall q : Quaternion B32.float,
    toRotationMatrix (Quaternion_neg q) = toRotationMatrix q.
Proof.
  intros [w x y z]. unfold toRotationMatrix, Quaternion_neg, sqr.
  cbn [q_w q_x q_y q_z]. b32_arith.
  now rewrite !SFmul_opp_opp.
Qed.

(** X25. On binary32 the matrix of the conjugate is the transpose of the
    matrix, bit for bit. *)
Theorem X25_toRotationMatrix_conjugate_b32 :
  forall q : Quaternion B32.float,
    toRotationMatrix (conjugate q) = transpose (toRotationMatrix q).
Proof.
  intros [w x y z]. unfold toRotationMatrix, conjugate, sqr.
  cbn [q_w q_x q_y q_z]. cbn zeta. rewrite transpose_new. b32_arith.
  rewrite !SFmul_opp_opp, !SFmul_opp_l, !SFsub_opp_r, !SFadd_opp_r.
  reflexivity.
Qed.

(** X26. When the trace compares greater than zero, [fromMatrix] assigns
    all four components and the receiver's old value plays no part; when
    it does not (NaN included), the z component is the receiver's old
    one. *)
Theorem X26_fromMatrix_receiver :
  forall (F : Type) (O : FloatOps F) (q1 q2 : Quaternion F)
         (mat : Matrix3x3 F),
    ((trace mat > lit0)%fl = true -> fromMatrix q1 mat = fromMatrix q2 mat)
    /\ ((trace mat > lit0)%fl = false ->
        q_z (fromMatrix q1 mat) = q_z q1).
Proof.
  intros F O q1 q2 mat. split.
  - intros Ht. unfold fromMatrix. now rewrite Ht.
  - intros Ht. now apply fromMatrix_branch2_keeps_z.
Qed.

Lemma X26_fromMatrix_receiver_witness :
  fromMatrix Quaternion_default m_rot_z_quarter
  = fromMatrix q_half m_rot_z_quarter
  /\ q_z (fromMatrix q_half m_rot_x_half) = q_z q_half.
Proof.
  split.
  - destruct (@X26_fromMatrix_receiver B32.float B32.ops
                Quaternion_default q_half m_rot_z_quarter) as [H1 _].
    apply H1. reflexivity.
  - destruct (@X26_fromMatrix_receiver B32.float B32.ops
                q_half q_half m_rot_x_half) as [_ H2].
    apply H2. reflexivity.
Defined.

(** X27. In exact arithmetic the Hamilton product [p * q] has scalar part
    p.w q.w minus the three-term scalar product of the vector parts (the
    two terms of [dot] and the z term), and vector part
    p.w q.axis + q.w p.axis + p.axis x q.axis. *)
Theorem X27_mul_by_parts_exact :
  forall p q : Quaternion R,
    q_w (Quaternion_mul p q)
    = (q_w p * q_w q - (Vector_dot (axis p) (axis q) + q_z p * q_z q))%R
    /\ axis (Quaternion_mul p q)
       = Vector_add (Vector_add (Vector_scale (axis q) (q_w p))
                                (Vector_scale (axis p) (q_w q)))
                    (Vector_cross (axis p) (axis q)).
Proof.
  intros [w1 x1 y1 z1] [w2 x2 y2 z2].
  unfold Quaternion_mul, axis, Vector_dot, Vector_add, Vector_scale,
    Vector_cross.
  cbn [q_w q_x q_y q_z v_x v_y v_z]. exact_arith.
  split; [ring | f_equal; ring].
Qed.

(** X28. In exact arithmetic [a.cross(b).dot(a)] is not the zero of an
    orthogonal pair: [dot] leaves out the z term, so the result is the
    opposite of that term, while the three-term scalar product is 0.  For
    a = (1, 0, 1) and b = (0, 1, 0) the cross product is (-1, 0, 1) and
    [a.cross(b).dot(a)] is -1, in exact arithmetic and on binary32. *)
Theorem X28_dot_of_cross_exact :
  (forall a b : Vector R,
      Vector_dot (Vector_cross a b) a
      = (- (v_z (Vector_cross a b) * v_z a))%R
      /\ dot3 (Vector_cross a b) a = 0%R)
  /\ (Vector_cross (mkVector 1%R 0%R 1%R) (mkVector 0%R 1%R 0%R)
      = mkVector (-1)%R 0%R 1%R
      /\ Vector_dot (Vector_cross (mkVector 1%R 0%R 1%R)
                                  (mkVector 0%R 1%R 0%R))
                    (mkVector 1%R 0%R 1%R) = (-1)%R
      /\ Vector_dot (Vector_cross (mkVector 1%R 0%R 1%R)
                                  (mkVector 0%R 1%R 0%R))
                    (mkVector 1%R 0%R 1%R) <> 0%R)
  /\ Vector_dot (Vector_cross (mkVector lit1 lit0 lit1)
                              (mkVector lit0 lit1 lit0))
                (mkVector lit1 lit0 lit1)
     = B32.lit (-1) 0.
Proof.
  split; [| split].
  - intros [ax ay az] [bx by_ bz].
    unfold Vector_dot, dot3, Vector_cross. cbn [v_x v_y v_z]. exact_arith.
    split; ring.
  - unfold Vector_dot, Vector_cross. cbn [v_x v_y v_z]. exact_arith.
    split; [f_equal; ring | split; [ring | lra]].
  - vm_compute. reflexivity.
Qed.

(** X29. In exact arithmetic and for every matrix of trace greater than
    -1, [toQuaternion()] returns a quaternion of squared norm 1 with a
    positive scalar part. *)
Theorem X29_toQuaternion_unit_exact :
  forall m : Matrix3x3 R,
    (-1 < trace m)%R ->
    Quaternion_normSqr (toQuaternion m) = 1%R
    /\ (0 < q_w (toQuaternion m))%R.
Proof.
  intros m Ht. unfold toQuaternion. cbn zeta.
  set (t := trace m) in *.
  assert (Hs : (0 < sqrt (1 + t))%R) by (apply sqrt_lt_R0; exact_arith; lra).
  match goal with
  | |- Quaternion_normSqr (Quaternion_normalised ?q0) = _ /\ _ =>
      set (q := q0)
  end.
  assert (Hw : (0 < q_w q)%R).
  { subst q. cbn [q_w]. exact_arith. lra. }
  assert (Hn : (0 < Quaternion_normSqr q)%R).
  { unfold Quaternion_normSqr, sqr. exact_arith.
    pose proof (Rle_0_sqr (q_x q)) as Hx.
    pose proof (Rle_0_sqr (q_y q)) as Hy.
    pose proof (Rle_0_sqr (q_z q)) as Hz.
    unfold Rsqr in *. nra. }
  split.
  - apply normalised_normSqr_exact. lra.
  - unfold Quaternion_normalised, Quaternion_div, Quaternion_norm.
    cbn [q_w]. exact_arith.
    apply Rdiv_lt_0_compat; [exact Hw | apply sqrt_lt_R0, Hn].
Qed.

Lemma X29_toQuaternion_unit_exact_witness :
  Quaternion_normSqr (toQuaternion (identity (F := R))) = 1%R
  /\ (0 < q_w (toQuaternion (identity (F := R))))%R.
Proof.
  apply (@X29_toQuaternion_unit_exact identity).
  unfold trace, coeff. cbn. exact_arith. lra.
Defined.
